(** * ProcureSight: the web client and the documented pipeline contracts

    A shallow embedding of the TypeScript client of ProcureSight
    (upload page, list pages, typed API helpers, auth middleware) and of
    the ingestion and validation contracts the repository documents, with
    the properties its specification states about them. *)

From Stdlib Require Import Bool List String Ascii Strings.Byte Arith NArith ZArith.
From Stdlib Require Import QArith Qabs Floats Lia.
From Stdlib Require Import DecimalString DecimalNat FinFun.
Import ListNotations.
Close Scope Q_scope.
Open Scope string_scope.
Set Warnings "-register-all".

(* ================================================================= *)
(** ** JavaScript values

    The pages receive [data as unknown] and test it dynamically, so the
    embedding keeps a dynamic value. An array is an object: besides its
    elements it may carry named properties, which is what
    [asObject(raw).items] reads on an array. Numbers are IEEE doubles. *)

Module Js.

Inductive value : Type :=
| VUndefined
| VNull
| VBool (b : bool)
| VNum (n : float)
| VStr (s : string)
| VArr (elems : list value) (props : list (string * value))
| VObj (props : list (string * value)).

(** [ToBoolean]: the falsy values are [undefined], [null], [false],
    [+0], [-0], [NaN] and the empty string; everything else, every
    object and array included, is truthy. *)
Definition truthy (v : value) : bool :=
  match v with
  | VUndefined | VNull => false
  | VBool b => b
  | VNum n => negb (PrimFloat.eqb n 0%float || PrimFloat.is_nan n)
  | VStr s => negb (String.eqb s "")
  | VArr _ _ | VObj _ => true
  end.

(** Lookup in a property table; the first binding of a key is the
    property's value. *)
Fixpoint lookup (k : string) (ps : list (string * value)) : option value :=
  match ps with
  | [] => None
  | (k', v) :: rest => if String.eqb k k' then Some v else lookup k rest
  end.

(** [v.k] for a value that is not null or undefined (every call site
    applies it to the result of [asObject]): a missing property reads
    as [undefined]; primitives have no such own property. *)
Definition get (k : string) (v : value) : value :=
  match v with
  | VArr _ ps | VObj ps =>
      match lookup k ps with Some x => x | None => VUndefined end
  | _ => VUndefined
  end.

Definition has_property (k : string) (v : value) : bool :=
  match v with
  | VArr _ ps | VObj ps =>
      match lookup k ps with Some _ => true | None => false end
  | _ => false
  end.

(** [String.prototype.toLowerCase] on ASCII text: the letters A to Z
    go to a to z and every other character stays. Strings are
    sequences of 8-bit characters and the function is exact on ASCII
    text only: outside it JavaScript maps more (the Kelvin sign U+212A
    lower-cases to k). No character other than P, D, F lower-cases to
    p, d, f; a statement that compares with a word holding a k is made
    for ASCII text. *)
Definition lower_ascii (c : ascii) : ascii :=
  let n := nat_of_ascii c in
  if ((65 <=? n) && (n <=? 90))%nat then ascii_of_nat (n + 32) else c.

Fixpoint toLowerCase (s : string) : string :=
  match s with
  | EmptyString => EmptyString
  | String c rest => String (lower_ascii c) (toLowerCase rest)
  end.

(** [s.split(sep)] for a one-character separator: never empty, one more
    piece than there are separators. [split_acc] carries the piece being
    read, in reverse. *)
Fixpoint rev_string (acc s : string) : string :=
  match s with
  | EmptyString => acc
  | String c rest => rev_string (String c acc) rest
  end.

Fixpoint split_acc (sep : ascii) (cur : string) (s : string) : list string :=
  match s with
  | EmptyString => [rev_string EmptyString cur]
  | String c rest =>
      if Ascii.eqb c sep
      then rev_string EmptyString cur :: split_acc sep EmptyString rest
      else split_acc sep (String c cur) rest
  end.

Definition split (sep : ascii) (s : string) : list string :=
  split_acc sep EmptyString s.

(** [xs.pop()] as used on a fresh array: its last element, [undefined]
    (here [None]) on the empty array. *)
Fixpoint pop (xs : list string) : option string :=
  match xs with
  | [] => None
  | [x] => Some x
  | _ :: rest => pop rest
  end.

(** [v.k] as the language evaluates it: reading a property off
    [undefined] or [null] throws a TypeError ([None]); off anything
    else it yields what [get] yields. *)
Definition member (k : string) (v : value) : option value :=
  match v with
  | VUndefined | VNull => None
  | _ => Some (get k v)
  end.

(** Text made of ASCII characters only. *)
Fixpoint is_ascii (s : string) : bool :=
  match s with
  | EmptyString => true
  | String c rest => (nat_of_ascii c <? 128)%nat && is_ascii rest
  end.

End Js.


(* ================================================================= *)
(** ** The typed API client ([lib/apiClient.ts], [lib/api.ts])

    [api.GET] and [api.POST] resolve to an object with a [data] and an
    [error] field (an absent field reads as [undefined]), or reject. *)

Module Api.

Record FetchResponse : Type := mkResponse {
  data : Js.value;
  error : Js.value
}.

(** What awaiting a request yields. *)
Inductive outcome : Type :=
| Resolved (res : FetchResponse)
| Rejected (err : Js.value).

(** How an async function settles. *)
Inductive completion : Type :=
| Return (v : Js.value)
| Throw (err : Js.value).

(** [const params = (args[0] as any) ?? {}] *)
Definition params_of (args : list Js.value) : Js.value :=
  match args with
  | Js.VUndefined :: _ | Js.VNull :: _ | [] => Js.VObj []
  | a :: _ => a
  end.

(** [apiGet(path, ...args)]:
    [const res = await api.GET(path, params);
     if (res.error) throw res.error;
     return res.data] *)
Definition apiGet (GET : string -> Js.value -> outcome)
    (path : string) (args : list Js.value) : completion :=
  match GET path (params_of args) with
  | Rejected err => Throw err
  | Resolved res =>
      if Js.truthy (error res) then Throw (error res) else Return (data res)
  end.

(** [getVendors()]:
    [const { data, error } = await api.GET("/vendors");
     if (error) throw error;
     return data] *)
Definition getVendors (GET : string -> Js.value -> outcome) : completion :=
  match GET "/vendors" Js.VUndefined with
  | Rejected err => Throw err
  | Resolved res =>
      if Js.truthy (error res) then Throw (error res) else Return (data res)
  end.

End Api.

(* ================================================================= *)
(** ** List pages: invoices, alerts, vendors *)

Module Pages.
Import Js.

(** [Array.isArray(value) ? value : []] *)
Definition asArray (v : value) : list value :=
  match v with
  | VArr xs _ => xs
  | _ => []
  end.

(** [value && typeof value === "object" ? value : {}]; [typeof null] is
    ["object"] too, but [null] is falsy. *)
Definition asObject (v : value) : value :=
  match v with
  | VArr _ _ | VObj _ => v
  | _ => VObj []
  end.

(** Invoices and alerts pages:
    [asArray(asObject(raw).items).length > 0
       ? asArray(asObject(raw).items) : asArray(raw)] *)
Definition items (raw : value) : list value :=
  if (0 <? List.length (asArray (get "items" (asObject raw))))%nat
  then asArray (get "items" (asObject raw))
  else asArray raw.

(** Vendors page, the two sides swapped:
    [asArray(raw).length > 0 ? asArray(raw)
       : asArray(asObject(raw).items)] *)
Definition vendors_items (raw : value) : list value :=
  if (0 <? List.length (asArray raw))%nat
  then asArray raw
  else asArray (get "items" (asObject raw)).

(** [items.map(asObject)]: the rows the table renders. *)
Definition rows (raw : value) : list value := map asObject (items raw).

(** The same expression with its property reads as the language
    evaluates them, in evaluation order: [None] when a read throws.
    [Array.isArray], [.length] of an array and the conditional do not
    throw. *)
Definition items_checked (raw : value) : option (list value) :=
  match member "items" (asObject raw) with
  | None => None
  | Some tested =>
      if (0 <? List.length (asArray tested))%nat
      then match member "items" (asObject raw) with
           | None => None
           | Some taken => Some (asArray taken)
           end
      else Some (asArray raw)
  end.

(** Alerts page: [pickStatus]. *)
Definition pickStatus (obj : value) : string :=
  match get "status" obj with
  | VStr s => s
  | _ => "—"
  end.

(** Alerts page, the status cell:
    [status.toLowerCase() === "resolved" ||
     status.toLowerCase() === "dismissed" ||
     status.toLowerCase() === "acknowledged"] *)
Definition isResolved (status : string) : bool :=
  String.eqb (toLowerCase status) "resolved"
  || String.eqb (toLowerCase status) "dismissed"
  || String.eqb (toLowerCase status) "acknowledged".

(** [opacity: isResolved ? 0.6 : 1], in tenths. *)
Definition status_opacity (status : string) : nat :=
  if isResolved status then 6 else 10.

End Pages.

(* ================================================================= *)
(** ** The uploads page ([uploads/page.tsx]) *)

Module Upload.
Import Js.

Inductive UploadStatus : Type :=
| idle | uploading | uploaded | extracting | complete | error.

Record File : Type := mkFile {
  name : string;
  content : list byte
}.

(** The component's five [useState] cells. *)
Record PageState : Type := mkState {
  file : option File;
  status : UploadStatus;
  statusMessage : string;
  resultData : value;
  errorMessage : string
}.

Inductive Setter : Type :=
| setFile (f : option File)
| setStatus (s : UploadStatus)
| setStatusMessage (m : string)
| setResultData (d : value)
| setErrorMessage (m : string).

(** An async handler as the tree of its interactions: a state update
    followed by the rest, a request whose continuation receives what
    the [await] yields, the normal return, or a rejection that nothing
    catches. *)
Inductive Prog : Type :=
| Finish
| Uncaught
| Do (s : Setter) (k : Prog)
| POST (path : string) (body : File) (k : Api.outcome -> Prog).

Notation "s ;; k" := (Do s k) (at level 61, right associativity).

(** [file.name.split(".").pop()?.toLowerCase()] *)
Definition fileExt (f : File) : option string :=
  option_map toLowerCase (pop (split "." (name f))).

(** [fileExt === "pdf"] *)
Definition isPdf (f : File) : bool :=
  match fileExt f with
  | Some e => String.eqb e "pdf"
  | None => false
  end.

Definition extractEndpoint (f : File) : string :=
  if isPdf f then "/extract/unstructured" else "/extract/structured".

Section Handlers.

(** The text [JSON.stringify(v)] contributes to a template literal, and
    the text of [String(v)]; both are library functions, total on the
    values an answer or a rejection carries. *)
Variable JSON_stringify : value -> string.
Variable ToString : value -> string.

(** [catch (err) { setStatus("error");
      setErrorMessage(`Unexpected error: ${err.message || String(err)}`) }];
    reading [.message] off [null] or [undefined] throws in turn. *)
Definition catch_block (err : value) : Prog :=
  setStatus error ;;
  match err with
  | VUndefined | VNull => Uncaught
  | _ =>
      setErrorMessage
        ("Unexpected error: " ++
         (if truthy (get "message" err)
          then ToString (get "message" err)
          else ToString err)) ;;
      Finish
  end.

Definition after_extract (o : Api.outcome) : Prog :=
  match o with
  | Api.Rejected err => catch_block err
  | Api.Resolved extractRes =>
      if truthy (Api.error extractRes)
      then
        setStatus error ;;
        setErrorMessage
          ("Extraction failed: " ++ JSON_stringify (Api.error extractRes)) ;;
        Finish
      else
        setStatus complete ;;
        setStatusMessage "Processing complete" ;;
        setResultData (Api.data extractRes) ;;
        Finish
  end.

Definition after_ingest (f : File) (o : Api.outcome) : Prog :=
  match o with
  | Api.Rejected err => catch_block err
  | Api.Resolved ingestRes =>
      if truthy (Api.error ingestRes)
      then
        setStatus error ;;
        setErrorMessage
          ("Upload failed: " ++ JSON_stringify (Api.error ingestRes)) ;;
        Finish
      else
        setStatus uploaded ;;
        setStatusMessage "File uploaded successfully" ;;
        setStatus extracting ;;
        setStatusMessage
          (if isPdf f then "Extracting from PDF..."
           else "Extracting structured data...") ;;
        POST (extractEndpoint f) f after_extract
  end.

(** [handleUpload], run with the [file] cell as the closure saw it. *)
Definition handleUpload (selected : option File) : Prog :=
  match selected with
  | None => setErrorMessage "Please select a file first" ;; Finish
  | Some f =>
      setStatus uploading ;;
      setStatusMessage "Uploading file..." ;;
      setErrorMessage "" ;;
      POST "/api/ingest" f (after_ingest f)
  end.

End Handlers.

(** [handleFileChange] *)
Definition handleFileChange (selectedFile : option File) : Prog :=
  setFile selectedFile ;;
  setStatus idle ;;
  setStatusMessage "" ;;
  setResultData VNull ;;
  setErrorMessage "" ;;
  Finish.

(** What a run leaves behind, in order. *)
Inductive Event : Type :=
| Requested (path : string) (body : File)
| Updated (s : Setter).

Inductive Settled : Type := Returned | Crashed.

(** Running a handler against a backend that answers each request. *)
Fixpoint exec (api : string -> File -> Api.outcome) (p : Prog)
  : list Event * Settled :=
  match p with
  | Finish => ([], Returned)
  | Uncaught => ([], Crashed)
  | Do s k => let (t, r) := exec api k in (Updated s :: t, r)
  | POST path body k =>
      let (t, r) := exec api (k (api path body)) in
      (Requested path body :: t, r)
  end.

Definition trace (api : string -> File -> Api.outcome) (p : Prog)
  : list Event := fst (exec api p).

(** One click on Upload with the page in state [st]: the handler runs
    with the [file] cell of that render. *)
Definition click (JSON_stringify ToString : value -> string)
    (api : string -> File -> Api.outcome) (st : PageState)
  : list Event * Settled :=
  exec api (handleUpload JSON_stringify ToString (file st)).

(** The paths requested, in order. *)
Fixpoint requests (t : list Event) : list string :=
  match t with
  | [] => []
  | Requested path _ :: rest => path :: requests rest
  | Updated _ :: rest => requests rest
  end.

Definition set_cell (st : PageState) (s : Setter) : PageState :=
  match s with
  | setFile f =>
      mkState f (status st) (statusMessage st) (resultData st) (errorMessage st)
  | setStatus v =>
      mkState (file st) v (statusMessage st) (resultData st) (errorMessage st)
  | setStatusMessage m =>
      mkState (file st) (status st) m (resultData st) (errorMessage st)
  | setResultData d =>
      mkState (file st) (status st) (statusMessage st) d (errorMessage st)
  | setErrorMessage m =>
      mkState (file st) (status st) (statusMessage st) (resultData st) m
  end.

(** The page state once every update of a trace has been applied. *)
Fixpoint render (st : PageState) (t : list Event) : PageState :=
  match t with
  | [] => st
  | Updated s :: rest => render (set_cell st s) rest
  | Requested _ _ :: rest => render st rest
  end.

Definition is_extract (path : string) : bool :=
  String.eqb path "/extract/unstructured"
  || String.eqb path "/extract/structured".

(** The final extension of a file name in the usual sense, which is
    the sense of the specification: the text after the last dot; a
    name without a dot has no extension. [extension_from] walks the
    name and remembers the text after the latest dot seen. *)
Fixpoint extension_from (seen : option string) (s : string) : option string :=
  match s with
  | EmptyString => seen
  | String c rest =>
      if Ascii.eqb c "."
      then extension_from (Some rest) rest
      else extension_from seen rest
  end.

Definition extension (nm : string) : option string := extension_from None nm.


(** Pages and backends to run the handler on. *)
Definition page_with (nm : string) : PageState :=
  mkState (Some (mkFile nm [])) idle "" VNull "".

Definition blank_page : PageState := mkState None complete "done" VNull "".

(** A backend that accepts every request; the ingest answer flags a
    duplicate. *)
Definition accepting (path : string) (_ : File) : Api.outcome :=
  if String.eqb path "/api/ingest"
  then Api.Resolved
         (Api.mkResponse
            (VObj [("raw_doc_id", VNum 7%float); ("duplicate", VBool true)])
            VUndefined)
  else Api.Resolved (Api.mkResponse (VObj []) VUndefined).

(** A backend whose ingest answer carries the error [e]. *)
Definition ingest_fails_with (e : value) (path : string) (_ : File)
  : Api.outcome :=
  if String.eqb path "/api/ingest"
  then Api.Resolved (Api.mkResponse VUndefined e)
  else Api.Resolved (Api.mkResponse (VObj []) VUndefined).

(** A backend that cannot be reached: [fetch] rejects. *)
Definition offline (_ : string) (_ : File) : Api.outcome :=
  Api.Rejected (VObj [("message", VStr "Failed to fetch")]).

(** A stand-in for the two text conversions. *)
Definition show (v : value) : string :=
  match v with
  | VStr s => s
  | _ => "{}"
  end.

End Upload.

(* ================================================================= *)
(** ** The auth middleware ([middleware.ts]) *)

Module Middleware.
Import Js.

(** One position of a regular-expression alternative: a literal
    character, or [.], which stands for any character that is not a
    line terminator. *)
Inductive pat : Type :=
| Lit (c : ascii)
| AnyChar.

(** Line feed and carriage return, the line terminators an ASCII path
    could hold. *)
Definition line_terminator (c : ascii) : bool :=
  Ascii.eqb c "010" || Ascii.eqb c "013".

Fixpoint compile (alt : string) : list pat :=
  match alt with
  | EmptyString => []
  | String c rest =>
      (if Ascii.eqb c "." then AnyChar else Lit c) :: compile rest
  end.

Definition pat_matches (p : pat) (c : ascii) : bool :=
  match p with
  | Lit a => Ascii.eqb a c
  | AnyChar => negb (line_terminator c)
  end.

(** The alternative matches at the start of [s]. *)
Fixpoint looking_at (p : list pat) (s : string) : bool :=
  match p, s with
  | [], _ => true
  | _ :: _, EmptyString => false
  | x :: p', String c s' => pat_matches x c && looking_at p' s'
  end.

(** The alternatives of the negative lookahead of [config.matcher]. *)
Definition lookahead : list string :=
  ["api/auth"; "login"; "_next/static"; "_next/image"; "favicon.ico"].

Fixpoint no_line_terminator (s : string) : bool :=
  match s with
  | EmptyString => true
  | String c rest => negb (line_terminator c) && no_line_terminator rest
  end.

(** [config.matcher], matched against the whole path: a slash, then a
    group that opens with the negative lookahead
    [(?!api/auth|login|_next/static|_next/image|favicon.ico)] and goes
    on with dot-star. So: a slash, then a rest at whose start no
    alternative matches and which dot-star can consume. *)
Definition matcher (path : string) : bool :=
  match path with
  | String "/" rest =>
      negb (existsb (fun alt => looking_at (compile alt) rest) lookahead)
      && no_line_terminator rest
  | _ => false
  end.



(** The session token the callback receives: the decoded claims, or
    [null]. *)
Definition token_value (token : option (list (string * value))) : value :=
  match token with
  | Some claims => VObj claims
  | None => VNull
  end.

(** [authorized: ({ token }) => !!token] *)
Definition authorized (token : option (list (string * value))) : bool :=
  negb (negb (truthy (token_value token))).

Inductive Decision : Type :=
| Serve
| RedirectToSignIn.

(** The paths [withAuth] of next-auth/middleware lets through before
    it reads the token: the auth API (which holds the default sign-in
    and error pages) and its two public prefixes, /_next and
    /favicon.ico, each tested with [pathname.startsWith]. *)
Definition withAuth_public (path : string) : bool :=
  String.prefix "/api/auth" path
  || String.prefix "/_next" path
  || String.prefix "/favicon.ico" path.

(** [withAuth] on a request: outside the matcher the middleware does
    not run; inside it a public path is let through, and any other
    page is served only when [authorized] holds. *)
Definition middleware (path : string)
    (token : option (list (string * value))) : Decision :=
  if matcher path
  then if withAuth_public path then Serve
       else if authorized token then Serve else RedirectToSignIn
  else Serve.

End Middleware.

(* ================================================================= *)
(** ** The alert lifecycle *)

Module Alert.

(** Modelled from the spec: the alert store and its update endpoint
    belong to the API service, which is not among the sources. The
    status domain and the transitions are those of the spec's state
    machine: open to acknowledged, open to dismissed, and nothing out
    of a terminal status. *)
Inductive AlertStatus : Type :=
| open
| acknowledged
| dismissed.

Definition terminal (s : AlertStatus) : bool :=
  match s with
  | open => false
  | acknowledged | dismissed => true
  end.

Definition transition (from to : AlertStatus) : bool :=
  match from, to with
  | open, acknowledged | open, dismissed => true
  | _, _ => false
  end.

(** Update alert: the target status is taken when the transition
    exists and rejected otherwise. *)
Definition update_alert (current target : AlertStatus) : option AlertStatus :=
  if transition current target then Some target else None.

(** The status as the API serialises it for the alerts page. *)
Definition status_name (s : AlertStatus) : string :=
  match s with
  | open => "open"
  | acknowledged => "acknowledged"
  | dismissed => "dismissed"
  end.

End Alert.

(* ================================================================= *)
(** ** The ingestion gate *)

Module Ingest.

Record RawDocument : Type := mkDoc {
  id : nat;
  org : string;
  contentHash : N;
  storageRef : string;
  mime : string;
  byteSize : nat;
  uploadedAt : N
}.

(** The metadata table, the blob store as the objects put so far (each
    put goes under a key with a new uuid, so each put is one object),
    and the table's id sequence. *)
Record Store : Type := mkStore {
  raw_docs : list RawDocument;
  objects : list (string * list byte);
  next_id : nat
}.

(** What the collaborators answer during one call: the uuid drawn for
    the key, whether the blob store accepts the put, whether the
    insert goes through, and the clock. *)
Record Collaborators : Type := mkEnv {
  uuid : string;
  put_ok : bool;
  insert_ok : bool;
  now : N
}.

Inductive IngestError : Type :=
| StorageError
| MetadataError.

Record IngestResponse : Type := mkIngested {
  documentId : nat;
  storageLocator : string;
  duplicate : bool
}.

Inductive Notification : Type :=
| document_received (doc : nat).

Definition empty_store : Store := mkStore [] [] 1.

Definition same_key (o : string) (h : N) (d : RawDocument) : bool :=
  String.eqb (org d) o && N.eqb (contentHash d) h.

(** The number of rows under one (org, fingerprint) key. *)
Definition rows_for (o : string) (h : N) (s : Store) : nat :=
  List.length (filter (same_key o h) (raw_docs s)).

Section Gate.

(** The content fingerprint (SHA-256 of the bytes). *)
Variable fingerprint : list byte -> N.

(** Modelled from the spec: the ingestion gate is the POST /api/ingest
    handler of the API service, which is not among the sources. Its
    steps are those of the spec's section 4.1 and of the endpoint
    contract of the build plan: fingerprint the bytes; look the
    (org, fingerprint) key up and, when a row exists, return it with
    [duplicate = true] without storing or inserting; otherwise put the
    bytes, then insert the row that references the locator, and emit
    the notification. A failed put is fatal to the call and leaves no
    row; a failed insert after the put leaves the object orphaned. *)
Definition ingest (env : Collaborators) (s : Store) (o : string)
    (bytes : list byte) (filename mime_ : string)
  : Store * (IngestResponse + IngestError) * list Notification :=
  let h := fingerprint bytes in
  match find (same_key o h) (raw_docs s) with
  | Some d => (s, inl (mkIngested (id d) (storageRef d) true), [])
  | None =>
      if put_ok env then
        let loc := "org/" ++ o ++ "/uploads/" ++ uuid env ++ "/" ++ filename in
        let stored := (loc, bytes) :: objects s in
        if insert_ok env then
          let d :=
            mkDoc (next_id s) o h loc mime_ (List.length bytes) (now env) in
          (mkStore (raw_docs s ++ [d]) stored (S (next_id s)),
           inl (mkIngested (next_id s) loc false),
           [document_received (next_id s)])
        else (mkStore (raw_docs s) stored (next_id s), inr MetadataError, [])
      else (s, inr StorageError, [])
  end.

(** The uniqueness constraint on (org, contentHash): no two rows share
    a key. *)
Definition unique_keys (s : Store) : Prop :=
  forall o h, (rows_for o h s <= 1)%nat.

End Gate.

(** Collaborators that are up, and a toy fingerprint, to run the ingestion gate
    on. *)
Definition healthy : Collaborators := mkEnv "0b7e" true true 1758000000%N.

Definition toy_fingerprint (bytes : list byte) : N :=
  fold_right (fun b acc => (Byte.to_N b + 256 * acc)%N) 0%N bytes.

End Ingest.

(* ================================================================= *)
(** ** The validator *)

Module Validator.
Local Open Scope Q_scope.

Record InvoiceLine : Type := mkLine {
  sku : string;
  description : string;
  quantity : Q;
  unitPrice : Q;
  lineTotal : Q
}.

Record Invoice : Type := mkInvoice {
  vendor : option string;
  invoiceNo : option string;
  invoiceDate : option string;
  currency : string;
  subtotal : Q;
  tax : Q;
  total : Q;
  lines : list InvoiceLine
}.

Inductive Violation : Type :=
| LineArithmetic (index : nat)
| SubtotalMismatch
| TotalMismatch
| UnknownCurrency
| MissingField (field : string).










Record Decision : Type := mkDecision {
  invoice : Invoice;
  needsReview : bool;
  confidence : Q;
  violations : list Violation
}.


Section Rules.

(** Configuration the spec leaves open: the tolerance, the set of known
    currency codes, the weight of each violation and the review
    threshold. *)
Variable tolerance : Q.
Variable known_currency : string -> bool.
Variable weight : Violation -> Q.
Variable threshold : Q.


End Rules.







End Validator.

(* ================================================================= *)
(** ** More of JavaScript: operators, indices, property updates *)

Module JsOps.
Import Js.

(** The values [??] and [?.] take for missing: [undefined] and [null]. *)
Definition nullish (v : value) : bool :=
  match v with
  | VUndefined | VNull => true
  | _ => false
  end.

(** [a ?? b] *)
Definition coalesce (a b : value) : value := if nullish a then b else a.

(** [a || b] on values. *)
Definition or_else (a b : value) : value := if truthy a then a else b.

(** [a || b] on strings: the empty string is the one falsy string. *)
Definition or_str (a b : string) : string :=
  if String.eqb a "" then b else a.

(** [String(idx)] and the template conversion of an array index or a
    length: its decimal digits. *)
Definition String_of_nat (n : nat) : string :=
  NilEmpty.string_of_uint (Nat.to_uint n).

(** [obj.k = v] on a property table: the binding a read finds is
    replaced; a new property is added at the end. *)
Fixpoint set (k : string) (v : value) (ps : list (string * value))
  : list (string * value) :=
  match ps with
  | [] => [(k, v)]
  | (k', v') :: rest =>
      if String.eqb k k' then (k, v) :: rest else (k', v') :: set k v rest
  end.

(** [xs.map((x, idx) => f(x, idx))] *)
Fixpoint mapi_from {A B : Type} (i : nat) (f : A -> nat -> B) (xs : list A)
  : list B :=
  match xs with
  | [] => []
  | x :: rest => f x i :: mapi_from (S i) f rest
  end.

Definition mapi {A B : Type} (f : A -> nat -> B) (xs : list A) : list B :=
  mapi_from 0 f xs.

End JsOps.

(* ================================================================= *)
(** ** What a list page shows *)

Module ListView.
Import Js JsOps.

(** The three sections a list page chooses from:
    [error ? <failed> : rows.length === 0 ? <none yet> : <table>]. *)
Inductive View (R : Type) : Type :=
| ErrorPanel (error : value)
| EmptyPanel
| Table (rows : list R).

Arguments ErrorPanel {R} error.
Arguments EmptyPanel {R}.
Arguments Table {R} rows.

Definition view {R : Type} (error : value) (rows : list R) : View R :=
  if truthy error then ErrorPanel error
  else match rows with
       | [] => EmptyPanel
       | _ => Table rows
       end.

(** The header's counter: empty on an error, and otherwise
    [`${rows.length} total`]. *)
Definition counter {R : Type} (error : value) (rows : list R) : string :=
  if truthy error then "" else String_of_nat (List.length rows) ++ " total".

End ListView.

(* ================================================================= *)
(** ** The alerts page: cells of a row *)

Module AlertsPage.
Import Js JsOps.

(** [severity.toLowerCase() === "high"] and so on; gray otherwise. *)
Definition severityColor (severity : string) : string :=
  if String.eqb (toLowerCase severity) "high" then "#dc2626"
  else if String.eqb (toLowerCase severity) "medium" then "#ea580c"
  else if String.eqb (toLowerCase severity) "low" then "#ca8a04"
  else "#6b7280".

Record Row : Type := mkRow {
  key : string;
  alertType : string;
  severity : string;
  color : string;
  status : string;
  opacity : nat;
  createdAt : string;
  invoiceRef : string
}.

Section Cells.

(** [String(v)] for a number [v]: a library conversion. *)
Variable String_of_number : float -> string.

(** [const v = obj.id ?? obj.alert_id ?? obj.uuid;
     typeof v === "string" ? v : typeof v === "number" ? String(v)
     : empty] *)
Definition pickIdLike (obj : value) : string :=
  match coalesce (coalesce (get "id" obj) (get "alert_id" obj))
          (get "uuid" obj) with
  | VStr s => s
  | VNum n => String_of_number n
  | _ => ""
  end.

Definition pickAlertType (obj : value) : string :=
  match coalesce (coalesce (get "alert_type" obj) (get "type" obj))
          (get "rule_name" obj) with
  | VStr s => s
  | _ => "—"
  end.

Definition pickSeverity (obj : value) : string :=
  match get "severity" obj with
  | VStr s => s
  | _ => "—"
  end.

Definition pickCreatedAt (obj : value) : string :=
  match coalesce (coalesce (get "created_at" obj) (get "createdAt" obj))
          (get "timestamp" obj) with
  | VStr s => s
  | _ => "—"
  end.

Definition pickInvoiceRef (obj : value) : string :=
  match coalesce (coalesce (get "invoice_id" obj) (get "invoiceId" obj))
          (get "invoice_no" obj) with
  | VStr s => s
  | VNum n => String_of_number n
  | _ => "—"
  end.

(** The body of [alerts.map((alert, idx) => ...)]. *)
Definition row (alert : value) (idx : nat) : Row :=
  mkRow (or_str (pickIdLike alert) (String_of_nat idx))
    (pickAlertType alert)
    (pickSeverity alert)
    (severityColor (pickSeverity alert))
    (Pages.pickStatus alert)
    (Pages.status_opacity (Pages.pickStatus alert))
    (pickCreatedAt alert)
    (pickInvoiceRef alert).

(** The table body for a response. *)
Definition table (raw : value) : list Row := mapi row (Pages.rows raw).

Definition page (res : Api.FetchResponse) : string * ListView.View Row :=
  (ListView.counter (Api.error res) (Pages.rows (Api.data res)),
   ListView.view (Api.error res) (table (Api.data res))).

End Cells.

End AlertsPage.

(* ================================================================= *)
(** ** The invoices page: cells of a row *)

Module InvoicesPage.
Import Js JsOps.

Record Row : Type := mkRow {
  key : string;
  invoiceNo : string;
  status : string;
  total : string;
  currency : string;
  invoiceDate : string;
  vendorId : string
}.

Section Cells.

(** [String(v)] and [v.toFixed(2)] for a number [v]: library
    conversions. *)
Variable String_of_number : float -> string.
Variable toFixed2 : float -> string.

Definition pickIdLike (obj : value) : string :=
  match coalesce (coalesce (get "id" obj) (get "invoice_id" obj))
          (get "uuid" obj) with
  | VStr s => s
  | VNum n => String_of_number n
  | _ => ""
  end.

Definition pickInvoiceNoLike (obj : value) : string :=
  match coalesce (coalesce (get "invoice_no" obj) (get "invoice_number" obj))
          (get "number" obj) with
  | VStr s => s
  | _ => ""
  end.

Definition pickStatusLike (obj : value) : string :=
  match get "status" obj with
  | VStr s => s
  | _ => ""
  end.

Definition pickCurrencyLike (obj : value) : string :=
  match get "currency" obj with
  | VStr s => s
  | _ => ""
  end.

Definition pickTotalLike (obj : value) : string :=
  match coalesce (get "total" obj) (get "amount_total" obj) with
  | VNum n => toFixed2 n
  | VStr s => s
  | _ => ""
  end.

Definition pickVendorIdLike (obj : value) : string :=
  match coalesce (get "vendor_id" obj) (get "vendorId" obj) with
  | VStr s => s
  | VNum n => String_of_number n
  | _ => ""
  end.

Definition pickInvoiceDateLike (obj : value) : string :=
  match coalesce (get "invoice_date" obj) (get "invoiceDate" obj) with
  | VStr s => s
  | _ => ""
  end.

(** The body of [invoices.map((inv, idx) => ...)]. *)
Definition row (inv : value) (idx : nat) : Row :=
  mkRow (or_str (pickIdLike inv) (String_of_nat idx))
    (or_str (or_str (pickInvoiceNoLike inv) (pickIdLike inv))
       ("Invoice #" ++ String_of_nat (idx + 1)))
    (or_str (pickStatusLike inv) "—")
    (or_str (pickTotalLike inv) "—")
    (or_str (pickCurrencyLike inv) "—")
    (or_str (pickInvoiceDateLike inv) "—")
    (or_str (pickVendorIdLike inv) "—").

Definition table (raw : value) : list Row := mapi row (Pages.rows raw).

Definition page (res : Api.FetchResponse) : string * ListView.View Row :=
  (ListView.counter (Api.error res) (Pages.rows (Api.data res)),
   ListView.view (Api.error res) (table (Api.data res))).

End Cells.

End InvoicesPage.

(* ================================================================= *)
(** ** The dashboard page *)

Module Dashboard.
Import Js JsOps.

Section Lists.

Variable String_of_number : float -> string.

(** [obj.id ?? obj.invoice_id ?? obj.vendor_id ?? obj.uuid] *)
Definition pickIdLike (obj : value) : string :=
  match coalesce
          (coalesce (coalesce (get "id" obj) (get "invoice_id" obj))
             (get "vendor_id" obj))
          (get "uuid" obj) with
  | VStr s => s
  | VNum n => String_of_number n
  | _ => ""
  end.

Definition pickTitleLike (obj : value) : string :=
  match coalesce
          (coalesce
             (coalesce
                (coalesce (coalesce (get "name" obj) (get "vendor_name" obj))
                   (get "invoice_no" obj))
                (get "invoice_number" obj))
             (get "title" obj))
          (get "filename" obj) with
  | VStr s => s
  | _ => ""
  end.

(** [pickTitleLike(v) || id || `Vendor #${idx + 1}`], with the word of
    the list ("Vendor" or "Invoice"). *)
Definition label (word : string) (v : value) (idx : nat) : string :=
  or_str (or_str (pickTitleLike v) (pickIdLike v))
    (word ++ " #" ++ String_of_nat (idx + 1)).

(** The same normalization as the vendors page, for both
    collections. *)
Definition collection (data : value) : list value := Pages.vendors_items data.

Definition count (data : value) : nat := List.length (collection data).

(** [items.slice(0, 5).map(asObject)] *)
Definition recent (data : value) : list value :=
  map Pages.asObject (firstn 5 (collection data)).

Definition recentLabels (word : string) (data : value) : list string :=
  mapi (label word) (recent data).

(** [Boolean(vendorsError || invoicesError)] *)
Definition hasAnyError (vendorsError invoicesError : value) : bool :=
  truthy (or_else vendorsError invoicesError).

End Lists.

End Dashboard.

(* ================================================================= *)
(** ** The application shell: navigation *)

Module Shell.

Definition nav : list (string * string) :=
  [("/dashboard", "Dashboard");
   ("/uploads", "Uploads");
   ("/invoices", "Invoices");
   ("/vendors", "Vendors");
   ("/alerts", "Alerts")].

(** [pathname.startsWith(item.href)] *)
Definition active (pathname : string) (item : string * string) : bool :=
  String.prefix (fst item) pathname.

(** The link's class: sidebar-link, followed by active when the link
    is the active one. *)
Definition className (pathname : string) (item : string * string) : string :=
  "sidebar-link " ++ (if active pathname item then "active" else "").

(** The labels of the links drawn as active. *)
Definition activeLabels (pathname : string) : list string :=
  map snd (filter (active pathname) nav).

End Shell.

(* ================================================================= *)
(** ** The base URL of the two API clients *)

Module BaseUrl.

Definition fallback : string := "http://localhost:8000".

(** [s.replace(re, empty)] with the pattern slash, end of input: a
    slash at the very end of the text is removed, once. *)
Fixpoint strip_trailing_slash (s : string) : string :=
  match s with
  | EmptyString => EmptyString
  | String c EmptyString => if Ascii.eqb c "/" then EmptyString else s
  | String c rest => String c (strip_trailing_slash rest)
  end.

(** [lib/apiClient.ts]:
    the variable NEXT_PUBLIC_API_URL with its trailing slash replaced
    by nothing, [?? "http://localhost:8000"]; an unset variable reads
    as [undefined]. *)
Definition baseUrl (env : option string) : string :=
  match env with
  | Some s => strip_trailing_slash s
  | None => fallback
  end.

(** [packages/client]:
    [process.env.NEXT_PUBLIC_API_URL ?? "http://localhost:8000"]. *)
Definition package_baseUrl (env : option string) : string :=
  match env with
  | Some s => s
  | None => fallback
  end.

Fixpoint ends_with_slash (s : string) : bool :=
  match s with
  | EmptyString => false
  | String c EmptyString => Ascii.eqb c "/"
  | String _ rest => ends_with_slash rest
  end.

End BaseUrl.

(* ================================================================= *)
(** ** The auth callbacks ([lib/auth.ts]) *)

Module AuthOptions.
Import Js JsOps.

(** [jwt({ token, user })]:
    [if (user) token.sub = user.id; return token]. The token is an
    object; [user] is [undefined] on every call but the sign-in. *)
Definition jwt (token : list (string * value)) (user : value)
  : list (string * value) :=
  if truthy user then set "sub" (get "id" user) token else token.

(** [token?.sub] *)
Definition token_sub (token : value) : value :=
  if nullish token then VUndefined else get "sub" token.

(** [session({ session, token })]:
    [if (session.user && token?.sub) session.user.id = token.sub;
     return session]. The write goes into the object [session.user]
    refers to; on a truthy primitive the write throws (module code is
    strict), which is [None] here. *)
Definition session (sess : list (string * value)) (token : value)
  : option (list (string * value)) :=
  let user := get "user" (VObj sess) in
  if truthy user && truthy (token_sub token)
  then match user with
       | VObj ps => Some (set "user" (VObj (set "id" (token_sub token) ps)) sess)
       | VArr xs ps =>
           Some (set "user" (VArr xs (set "id" (token_sub token) ps)) sess)
       | _ => None
       end
  else Some sess.

End AuthOptions.

(* ================================================================= *)
(** ** The uploads page: what is drawn from the cells *)

Module UploadView.
Import Upload.

(** [status === "uploading" || status === "extracting"] *)
Definition isProcessing (st : PageState) : bool :=
  match status st with
  | uploading | extracting => true
  | _ => false
  end.

(** [disabled={!file || isProcessing}] *)
Definition button_disabled (st : PageState) : bool :=
  match file st with
  | None => true
  | Some _ => isProcessing st
  end.

(** [status === "error" && errorMessage && <section>] *)
Definition error_panel_shown (st : PageState) : bool :=
  match status st with
  | error => negb (String.eqb (errorMessage st) "")
  | _ => false
  end.

(** [status === "complete" && <section>] *)
Definition success_panel_shown (st : PageState) : bool :=
  match status st with
  | complete => true
  | _ => false
  end.

End UploadView.

(* ================================================================= *)
(** * Properties *)

(** ** Strings *)

Lemma string_app_assoc (a b c : string) : (a ++ b) ++ c = a ++ (b ++ c).
Proof. induction a as [|x a IH]; simpl; [reflexivity | now rewrite IH]. Qed.








Example split_three : Js.split "." "a.tar.PDF" = ["a"; "tar"; "PDF"].
Proof. reflexivity. Qed.

Example split_trailing_dot : Js.split "." "report." = ["report"; ""].
Proof. reflexivity. Qed.

Example split_no_dot : Js.split "." "README" = ["README"].
Proof. reflexivity. Qed.

Example extension_two_dots : Upload.extension "a.tar.PDF" = Some "PDF".
Proof. reflexivity. Qed.

Example truthy_zero : Js.truthy (Js.VNum 0%float) = false.
Proof. reflexivity. Qed.

Example truthy_nan : Js.truthy (Js.VNum PrimFloat.nan) = false.
Proof. reflexivity. Qed.

Example truthy_empty_object : Js.truthy (Js.VObj []) = true.
Proof. reflexivity. Qed.

(** ** The uploads page *)

Section UploadFacts.
Import Upload.

Variable JSON_stringify : Js.value -> string.
Variable ToString : Js.value -> string.
Variable api : string -> File -> Api.outcome.

Local Abbreviation clicked st := (click JSON_stringify ToString api st).

Lemma trace_do (s : Setter) (k : Prog) :
  trace api (Do s k) = Updated s :: trace api k.
Proof. unfold trace; simpl. destruct (exec api k); reflexivity. Qed.

Lemma trace_post (path : string) (body : File) (k : Api.outcome -> Prog) :
  trace api (POST path body k) =
  Requested path body :: trace api (k (api path body)).
Proof.
  unfold trace; simpl. destruct (exec api (k (api path body))); reflexivity.
Qed.

Lemma trace_finish : trace api Finish = [].
Proof. reflexivity. Qed.

Lemma trace_uncaught : trace api Uncaught = [].
Proof. reflexivity. Qed.

Lemma settled_do (s : Setter) (k : Prog) :
  snd (exec api (Do s k)) = snd (exec api k).
Proof. simpl. destruct (exec api k); reflexivity. Qed.

Lemma settled_post (path : string) (body : File) (k : Api.outcome -> Prog) :
  snd (exec api (POST path body k)) = snd (exec api (k (api path body))).
Proof. simpl. destruct (exec api (k (api path body))); reflexivity. Qed.

Ltac run_trace :=
  repeat (rewrite ?trace_do, ?trace_post, ?trace_finish, ?trace_uncaught,
            ?settled_do, ?settled_post; simpl).

(** The catch block issues no request. *)
Lemma catch_block_requests (err : Js.value) :
  requests (trace api (catch_block ToString err)) = [].
Proof. unfold catch_block. destruct err; run_trace; reflexivity. Qed.

(** What follows the extraction request issues no further request. *)
Lemma after_extract_requests (o : Api.outcome) :
  requests (trace api (after_extract JSON_stringify ToString o)) = [].
Proof.
  destruct o as [res | err]; simpl.
  - destruct (Js.truthy (Api.error res)); run_trace; reflexivity.
  - apply catch_block_requests.
Qed.

(** The requests of one click, by what the ingest call yields. *)
Lemma click_requests (f : File) :
  requests (trace api (handleUpload JSON_stringify ToString (Some f))) =
  match api "/api/ingest" f with
  | Api.Resolved res =>
      if Js.truthy (Api.error res)
      then ["/api/ingest"]
      else ["/api/ingest"; extractEndpoint f]
  | Api.Rejected _ => ["/api/ingest"]
  end.
Proof.
  unfold handleUpload. run_trace.
  destruct (api "/api/ingest" f) as [res | err]; simpl.
  - destruct (Js.truthy (Api.error res)); run_trace.
    + reflexivity.
    + now rewrite after_extract_requests.
  - now rewrite catch_block_requests.
Qed.


Lemma extractEndpoint_cases (f : File) :
  (isPdf f = true /\ extractEndpoint f = "/extract/unstructured")
  \/ (isPdf f = false /\ extractEndpoint f = "/extract/structured").
Proof. unfold extractEndpoint. destruct (isPdf f); auto. Qed.

(** C10. Pressing Upload while no file is selected sets the error
    message "Please select a file first" and returns at once: that one
    update is all the handler does, so no ingest or extraction request
    is issued and the status cell (like every cell but the error
    message) keeps its value. *)
Theorem upload_without_file (st : PageState) :
  file st = None ->
  clicked st = ([Updated (setErrorMessage "Please select a file first")], Returned)
  /\ requests (fst (clicked st)) = []
  /\ errorMessage (render st (fst (clicked st))) = "Please select a file first"
  /\ status (render st (fst (clicked st))) = status st
  /\ statusMessage (render st (fst (clicked st))) = statusMessage st
  /\ resultData (render st (fst (clicked st))) = resultData st.
Proof.
  intros Hnone. unfold click. rewrite Hnone. simpl.
  repeat split; reflexivity.
Qed.

(** C6. A duplicate is a flag, not an error: whenever the ingest
    response carries no error field, whatever its data (the duplicate
    flag included), the click runs on as a success. The status goes to
    "uploaded", then to "extracting", and the extraction request is
    issued; the "Upload failed" branch is not taken. What follows the
    extraction request depends on the extraction response alone. *)
Theorem duplicate_is_not_an_error (st : PageState) (f : File) (d : Js.value) :
  file st = Some f ->
  api "/api/ingest" f = Api.Resolved (Api.mkResponse d Js.VUndefined) ->
  fst (clicked st) =
    ([Updated (setStatus uploading);
     Updated (setStatusMessage "Uploading file...");
     Updated (setErrorMessage "");
     Requested "/api/ingest" f;
     Updated (setStatus uploaded);
     Updated (setStatusMessage "File uploaded successfully");
     Updated (setStatus extracting);
     Updated (setStatusMessage
                (if isPdf f then "Extracting from PDF..."
                 else "Extracting structured data..."));
     Requested (extractEndpoint f) f]
    ++ trace api (after_extract JSON_stringify ToString
                    (api (extractEndpoint f) f)))%list
  /\ requests (fst (clicked st)) = ["/api/ingest"; extractEndpoint f].
Proof.
  intros Hfile Hingest. unfold click. rewrite Hfile. split.
  - change (fst (exec api ?p)) with (trace api p).
    unfold handleUpload. run_trace. rewrite Hingest. simpl. run_trace.
    reflexivity.
  - change (fst (exec api ?p)) with (trace api p).
    rewrite click_requests, Hingest. reflexivity.
Qed.




(** When the ingest answer carries a truthy error the click ends
    there: the status is "error", the message reports that
    error, and the ingest request is the only request. In every run an
    extraction request is issued only after an ingest answer whose
    error is falsy, as the second request of the click. *)
Theorem ingest_error_stops_pipeline (st : PageState) (f : File) :
  file st = Some f ->
  (forall res,
     api "/api/ingest" f = Api.Resolved res ->
     Js.truthy (Api.error res) = true ->
     clicked st =
       ([Updated (setStatus uploading);
         Updated (setStatusMessage "Uploading file...");
         Updated (setErrorMessage "");
         Requested "/api/ingest" f;
         Updated (setStatus error);
         Updated (setErrorMessage
                    ("Upload failed: " ++ JSON_stringify (Api.error res)))],
        Returned)
     /\ requests (fst (clicked st)) = ["/api/ingest"]
     /\ status (render st (fst (clicked st))) = error
     /\ errorMessage (render st (fst (clicked st))) =
        "Upload failed: " ++ JSON_stringify (Api.error res))
  /\ (forall path,
        In path (requests (fst (clicked st))) ->
        is_extract path = true ->
        exists res,
          api "/api/ingest" f = Api.Resolved res
          /\ Js.truthy (Api.error res) = false
          /\ requests (fst (clicked st)) = ["/api/ingest"; path]).
Proof.
  intros Hfile. unfold click. rewrite Hfile. split.
  - intros res Hingest Herr.
    assert (E : exec api (handleUpload JSON_stringify ToString (Some f)) =
                ([Updated (setStatus uploading);
                  Updated (setStatusMessage "Uploading file...");
                  Updated (setErrorMessage "");
                  Requested "/api/ingest" f;
                  Updated (setStatus error);
                  Updated (setErrorMessage
                    ("Upload failed: " ++ JSON_stringify (Api.error res)))],
                 Returned)).
    { simpl. rewrite Hingest. simpl. rewrite Herr. reflexivity. }
    rewrite E. repeat split; reflexivity.
  - intros path Hin Hext.
    change (fst (exec api ?p)) with (trace api p) in *.
    rewrite click_requests in *.
    destruct (api "/api/ingest" f) as [res | err].
    + destruct (Js.truthy (Api.error res)) eqn:Herr.
      * destruct Hin as [<- | []]. discriminate.
      * exists res. repeat split; trivial.
        destruct Hin as [<- | [<- | []]]; [discriminate | reflexivity].
    + destruct Hin as [<- | []]. discriminate.
Qed.

(** With a file selected, the ingest request comes first and at most
    one request follows it, an extraction request. *)
Theorem upload_requests_bounded (st : PageState) (f : File) :
  file st = Some f ->
  requests (fst (clicked st)) = ["/api/ingest"]
  \/ requests (fst (clicked st)) = ["/api/ingest"; extractEndpoint f].
Proof.
  intros Hfile. unfold click. rewrite Hfile.
  change (fst (exec api ?p)) with (trace api p). rewrite click_requests.
  destruct (api "/api/ingest" f) as [res | err]; auto.
  destruct (Js.truthy (Api.error res)); auto.
Qed.

(** When both answers come back with a falsy error the click ends in
    "complete", keeps the extraction data as the result and leaves the
    error message empty. *)
Theorem successful_upload_completes (st : PageState) (f : File)
    (ingestRes extractRes : Api.FetchResponse) :
  file st = Some f ->
  api "/api/ingest" f = Api.Resolved ingestRes ->
  Js.truthy (Api.error ingestRes) = false ->
  api (extractEndpoint f) f = Api.Resolved extractRes ->
  Js.truthy (Api.error extractRes) = false ->
  snd (clicked st) = Returned
  /\ status (render st (fst (clicked st))) = complete
  /\ statusMessage (render st (fst (clicked st))) = "Processing complete"
  /\ resultData (render st (fst (clicked st))) = Api.data extractRes
  /\ errorMessage (render st (fst (clicked st))) = "".
Proof.
  intros Hfile Hi Hie Hx Hxe. unfold click. rewrite Hfile.
  assert (E : exec api (handleUpload JSON_stringify ToString (Some f)) =
              ([Updated (setStatus uploading);
                Updated (setStatusMessage "Uploading file...");
                Updated (setErrorMessage "");
                Requested "/api/ingest" f;
                Updated (setStatus uploaded);
                Updated (setStatusMessage "File uploaded successfully");
                Updated (setStatus extracting);
                Updated (setStatusMessage
                           (if isPdf f then "Extracting from PDF..."
                            else "Extracting structured data..."));
                Requested (extractEndpoint f) f;
                Updated (setStatus complete);
                Updated (setStatusMessage "Processing complete");
                Updated (setResultData (Api.data extractRes))],
               Returned)).
  { simpl. rewrite Hi. simpl. rewrite Hie. simpl. rewrite Hx. simpl.
    rewrite Hxe. reflexivity. }
  rewrite E. repeat split; reflexivity.
Qed.

(** A rejected ingest call (the network is down) is caught: the click
    ends in "error" with the thrown error's message, and no extraction
    request is issued. *)
Theorem rejected_ingest_is_caught (st : PageState) (f : File)
    (props : list (string * Js.value)) :
  file st = Some f ->
  api "/api/ingest" f = Api.Rejected (Js.VObj props) ->
  Js.truthy (Js.get "message" (Js.VObj props)) = true ->
  snd (clicked st) = Returned
  /\ requests (fst (clicked st)) = ["/api/ingest"]
  /\ status (render st (fst (clicked st))) = error
  /\ errorMessage (render st (fst (clicked st))) =
     "Unexpected error: " ++ ToString (Js.get "message" (Js.VObj props)).
Proof.
  intros Hfile Hi Hm. unfold click. rewrite Hfile.
  assert (E : exec api (handleUpload JSON_stringify ToString (Some f)) =
              ([Updated (setStatus uploading);
                Updated (setStatusMessage "Uploading file...");
                Updated (setErrorMessage "");
                Requested "/api/ingest" f;
                Updated (setStatus error);
                Updated (setErrorMessage
                           ("Unexpected error: " ++
                            ToString (Js.get "message" (Js.VObj props))))],
               Returned)).
  { simpl. rewrite Hi. simpl in *. rewrite Hm. reflexivity. }
  rewrite E. repeat split; reflexivity.
Qed.

End UploadFacts.

(** The hypotheses of [upload_without_file] hold on a page that has
    finished an earlier upload and has no file selected. *)
Lemma upload_without_file_witness :
  Upload.file Upload.blank_page = None
  /\ Upload.requests
       (fst (Upload.click Upload.show Upload.show Upload.accepting
               Upload.blank_page)) = []
  /\ Upload.status
       (Upload.render Upload.blank_page
          (fst (Upload.click Upload.show Upload.show Upload.accepting
                  Upload.blank_page))) = Upload.complete.
Proof.
  pose proof (upload_without_file Upload.show Upload.show Upload.accepting
                Upload.blank_page eq_refl) as H.
  split; [reflexivity |].
  split; [exact (proj1 (proj2 H)) | exact (proj1 (proj2 (proj2 (proj2 H))))].
Defined.

(** [duplicate_is_not_an_error] on an ingest answer that flags a
    duplicate. *)
Lemma duplicate_is_not_an_error_witness :
  Upload.requests
    (fst (Upload.click Upload.show Upload.show Upload.accepting
            (Upload.page_with "invoices.csv")))
  = ["/api/ingest"; "/extract/structured"].
Proof.
  exact (proj2 (duplicate_is_not_an_error Upload.show Upload.show
                  Upload.accepting (Upload.page_with "invoices.csv")
                  (Upload.mkFile "invoices.csv" [])
                  (Js.VObj [("raw_doc_id", Js.VNum 7%float);
                            ("duplicate", Js.VBool true)])
                  eq_refl eq_refl)).
Defined.



(** [ingest_error_stops_pipeline] on a validation error of the API. *)
Lemma ingest_error_stops_pipeline_witness :
  Upload.requests
    (fst (Upload.click Upload.show Upload.show
            (Upload.ingest_fails_with
               (Js.VObj [("detail", Js.VStr "storage unavailable")]))
            (Upload.page_with "invoices.csv")))
  = ["/api/ingest"].
Proof.
  exact (proj1 (proj2
    (proj1 (ingest_error_stops_pipeline Upload.show Upload.show
              (Upload.ingest_fails_with
                 (Js.VObj [("detail", Js.VStr "storage unavailable")]))
              (Upload.page_with "invoices.csv")
              (Upload.mkFile "invoices.csv" []) eq_refl)
       _ eq_refl eq_refl))).
Defined.

(** C2. The handler on an error response with an empty body: the
    answer's error field holds the empty string, there is no data. The
    pipeline should end here in "error" with no extraction request;
    the handler tests the error for truthiness, takes the answer for a
    success, issues the extraction request and ends in "complete". *)
Lemma empty_error_reaches_extraction :
  Api.error (Api.mkResponse Js.VUndefined (Js.VStr "")) <> Js.VUndefined
  /\ Upload.requests
       (fst (Upload.click Upload.show Upload.show
               (Upload.ingest_fails_with (Js.VStr ""))
               (Upload.page_with "invoices.csv")))
     = ["/api/ingest"; "/extract/structured"]
  /\ Upload.status
       (Upload.render (Upload.page_with "invoices.csv")
          (fst (Upload.click Upload.show Upload.show
                  (Upload.ingest_fails_with (Js.VStr ""))
                  (Upload.page_with "invoices.csv"))))
     = Upload.complete.
Proof. split; [discriminate | split; reflexivity]. Qed.

(** ** The typed helpers *)

(** The falsy values, one by one. *)
Lemma falsy_values (v : Js.value) :
  Js.truthy v = false <->
  v = Js.VUndefined \/ v = Js.VNull \/ v = Js.VBool false
  \/ (exists n, v = Js.VNum n
                /\ (PrimFloat.eqb n 0%float || PrimFloat.is_nan n) = true)
  \/ v = Js.VStr "".
Proof.
  split.
  - destruct v as [| |b|n|s|xs ps|ps]; simpl; intros H; auto.
    + subst; auto.
    + right; right; right; left. exists n. split; [reflexivity |].
      now apply negb_false_iff in H.
    + apply negb_false_iff, String.eqb_eq in H. subst; auto 6.
    + discriminate.
    + discriminate.
  - intros [-> | [-> | [-> | [[n [-> Hn]] | ->]]]]; simpl; trivial.
    now rewrite Hn.
Qed.

Section HelperFacts.

Variable GET : string -> Js.value -> Api.outcome.




End HelperFacts.


(** C7. The helpers on an error response with an empty body: the
    answer has no data and its error field holds the empty string.
    They should throw that error; both test it for truthiness, throw
    nothing and return the absent data. *)
Lemma empty_error_is_not_thrown :
  Api.error (Api.mkResponse Js.VUndefined (Js.VStr "")) <> Js.VUndefined
  /\ Api.apiGet
       (fun _ _ => Api.Resolved (Api.mkResponse Js.VUndefined (Js.VStr "")))
       "/vendors" []
     = Api.Return Js.VUndefined
  /\ Api.getVendors
       (fun _ _ => Api.Resolved (Api.mkResponse Js.VUndefined (Js.VStr "")))
     = Api.Return Js.VUndefined.
Proof. split; [discriminate | split; reflexivity]. Qed.

(** ** The list pages *)

Lemma items_of_array (xs : list Js.value) (ps : list (string * Js.value)) :
  Pages.asArray (Js.get "items" (Js.VArr xs ps)) = [] ->
  Pages.items (Js.VArr xs ps) = xs.
Proof. unfold Pages.items. simpl Pages.asObject. intros ->. reflexivity. Qed.

Lemma items_of_envelope (env : list (string * Js.value)) :
  Pages.items (Js.VObj env) = Pages.asArray (Js.get "items" (Js.VObj env)).
Proof.
  unfold Pages.items. simpl Pages.asObject.
  destruct (Pages.asArray (Js.get "items" (Js.VObj env))); reflexivity.
Qed.

(** The vendors page tests the two shapes in the other order; it
    agrees with the invoices and alerts pages on every response except
    an array that itself carries a non-empty array under [items]. *)
Theorem vendors_items_agree (raw : Js.value) :
  (forall xs ps, raw = Js.VArr xs ps ->
                 xs = [] \/ Pages.asArray (Js.get "items" raw) = []) ->
  Pages.vendors_items raw = Pages.items raw.
Proof.
  intros H. destruct raw as [| |b|n|s|xs ps|env]; try reflexivity.
  - destruct (H xs ps eq_refl) as [-> | E].
    + unfold Pages.vendors_items, Pages.items. simpl Pages.asObject.
      cbn [Pages.asArray List.length Nat.ltb Nat.leb].
      destruct (Pages.asArray (Js.get "items" (Js.VArr [] ps))); reflexivity.
    + rewrite (items_of_array xs ps E). unfold Pages.vendors_items.
      simpl Pages.asObject. rewrite E. cbn [Pages.asArray].
      destruct xs; reflexivity.
  - rewrite items_of_envelope. reflexivity.
Qed.

(** Reading [items] off what [asObject] returns never throws: the
    checked normalization always yields the list [items] computes. *)
Lemma member_asObject (k : string) (v : Js.value) :
  Js.member k (Pages.asObject v) = Some (Js.get k (Pages.asObject v)).
Proof. destruct v; reflexivity. Qed.

Lemma items_checked_total (raw : Js.value) :
  Pages.items_checked raw = Some (Pages.items raw).
Proof.
  unfold Pages.items_checked, Pages.items. rewrite member_asObject.
  destruct (0 <? _)%nat; reflexivity.
Qed.

(** C8. The list pages accept both shapes of a list response, and the
    normalization never fails: with every property read evaluated as
    the language does (a read off null or undefined throws), it
    returns a list for every response. For a non-empty array [xs] that
    carries no [items] property, the bare array and any envelope
    object whose [items] is that array normalize to [xs], and so
    render the same rows. The other responses normalize to the empty
    list: undefined and null, booleans, numbers and strings, an object
    whose [items] is not an array, and the empty collections (an empty
    array, an envelope whose [items] is an empty array). *)
Theorem list_normalization :
  (forall raw, exists xs, Pages.items_checked raw = Some xs)
  /\ (forall xs ps ps' env,
        xs <> [] ->
        Js.has_property "items" (Js.VArr xs ps) = false ->
        Js.lookup "items" env = Some (Js.VArr xs ps') ->
        Pages.items_checked (Js.VArr xs ps) = Some xs
        /\ Pages.items_checked (Js.VObj env) = Some xs
        /\ Pages.rows (Js.VArr xs ps) = Pages.rows (Js.VObj env))
  /\ Pages.items_checked Js.VUndefined = Some []
  /\ Pages.items_checked Js.VNull = Some []
  /\ (forall b, Pages.items_checked (Js.VBool b) = Some [])
  /\ (forall n, Pages.items_checked (Js.VNum n) = Some [])
  /\ (forall s, Pages.items_checked (Js.VStr s) = Some [])
  /\ (forall env,
        (forall xs ps, Js.lookup "items" env <> Some (Js.VArr xs ps)) ->
        Pages.items_checked (Js.VObj env) = Some [])
  /\ (forall ps,
        Js.has_property "items" (Js.VArr [] ps) = false ->
        Pages.items_checked (Js.VArr [] ps) = Some [])
  /\ (forall env ps,
        Js.lookup "items" env = Some (Js.VArr [] ps) ->
        Pages.items_checked (Js.VObj env) = Some []).
Proof.
  split.
  { intros raw. exists (Pages.items raw). apply items_checked_total. }
  split; [| repeat split; try reflexivity].
  - intros xs ps ps' env Hne Hno Henv.
    assert (A : Pages.items (Js.VArr xs ps) = xs).
    { apply items_of_array. simpl in *.
      destruct (Js.lookup "items" ps); [discriminate | reflexivity]. }
    assert (B : Pages.items (Js.VObj env) = xs).
    { rewrite items_of_envelope. simpl. now rewrite Henv. }
    rewrite !items_checked_total. unfold Pages.rows. rewrite A, B. auto.
  - intros env Hno. rewrite items_checked_total, items_of_envelope. simpl.
    destruct (Js.lookup "items" env) as [v |]; [| reflexivity].
    destruct v; try reflexivity. now elim (Hno elems props).
  - intros ps Hno. rewrite items_checked_total. f_equal.
    apply items_of_array. simpl in *.
    destruct (Js.lookup "items" ps); [discriminate | reflexivity].
  - intros env ps Henv. rewrite items_checked_total, items_of_envelope.
    simpl. now rewrite Henv.
Qed.

(** A two-invoice list, bare and inside the paging envelope. *)
Lemma list_normalization_witness :
  Pages.items_checked
    (Js.VArr [Js.VObj [("invoice_no", Js.VStr "INV-1042")]; Js.VObj []] [])
  = Pages.items_checked
      (Js.VObj
         [("limit", Js.VNum 50%float);
          ("items",
           Js.VArr [Js.VObj [("invoice_no", Js.VStr "INV-1042")]; Js.VObj []]
             []);
          ("offset", Js.VNum 0%float)]).
Proof.
  destruct (proj1 (proj2 list_normalization)
              [Js.VObj [("invoice_no", Js.VStr "INV-1042")]; Js.VObj []]
              [] []
              [("limit", Js.VNum 50%float);
               ("items",
                Js.VArr
                  [Js.VObj [("invoice_no", Js.VStr "INV-1042")]; Js.VObj []]
                  []);
               ("offset", Js.VNum 0%float)]
              ltac:(discriminate) eq_refl eq_refl) as [A [B _]].
  exact (eq_trans A (eq_sym B)).
Defined.

(** ** Alert statuses *)


Lemma lower_ascii_keeps_range (c : ascii) :
  (nat_of_ascii (Js.lower_ascii c) <? 128)%nat = (nat_of_ascii c <? 128)%nat.
Proof. destruct c as [[] [] [] [] [] [] [] []]; reflexivity. Qed.

(** Lower-casing keeps text inside and outside ASCII: a status whose
    lower-cased form is an ASCII word is itself ASCII text, a spelling
    of that word in letters of either case. *)
Lemma is_ascii_toLowerCase (s : string) :
  Js.is_ascii (Js.toLowerCase s) = Js.is_ascii s.
Proof.
  induction s as [|c s IH]; simpl; [reflexivity |].
  now rewrite lower_ascii_keeps_range, IH.
Qed.

Lemma status_name_ascii (a : Alert.AlertStatus) :
  Js.is_ascii (Alert.status_name a) = true.
Proof. destruct a; reflexivity. Qed.

(** C5. The alert status domain is open, acknowledged and dismissed;
    the last two are terminal and no transition leaves them. On a
    status of that domain, spelled in letters of either case, the
    alerts page classifies the alert as resolved (and dims it) exactly
    when the status is terminal: when it is acknowledged or dismissed,
    never when it is open. Such a spelling is ASCII text, on which the
    lower-casing of the page is the one modelled. *)
Theorem resolved_statuses :
  (forall a status,
     Js.toLowerCase status = Alert.status_name a ->
     Js.is_ascii status = true
     /\ Pages.isResolved status = Alert.terminal a
     /\ Pages.status_opacity status
        = (if Alert.terminal a then 6 else 10)%nat)
  /\ (forall a,
        Alert.terminal a = true <->
        a = Alert.acknowledged \/ a = Alert.dismissed)
  /\ (forall status,
        Js.toLowerCase status = "acknowledged"
        \/ Js.toLowerCase status = "dismissed" ->
        Pages.isResolved status = true)
  /\ (forall status,
        Js.toLowerCase status = "open" -> Pages.isResolved status = false)
  /\ (forall alert status,
        Js.get "status" alert = Js.VStr status ->
        Pages.isResolved (Pages.pickStatus alert) = Pages.isResolved status)
  /\ (forall a b,
        Alert.terminal a = true ->
        Alert.transition a b = false /\ Alert.update_alert a b = None)
  /\ Alert.update_alert Alert.open Alert.acknowledged = Some Alert.acknowledged
  /\ Alert.update_alert Alert.open Alert.dismissed = Some Alert.dismissed.
Proof.
  split.
  { intros a status H.
    assert (R : Pages.isResolved status = Alert.terminal a).
    { unfold Pages.isResolved. rewrite H. destruct a; reflexivity. }
    split.
    - rewrite <- is_ascii_toLowerCase, H. apply status_name_ascii.
    - split; [exact R |]. unfold Pages.status_opacity. now rewrite R. }
  split.
  { intros []; simpl; split; intros H; auto; try discriminate;
      destruct H; discriminate. }
  split.
  { intros status [H | H]; unfold Pages.isResolved; now rewrite H. }
  split.
  { intros status H. unfold Pages.isResolved. now rewrite H. }
  split.
  { intros alert status H. unfold Pages.pickStatus. now rewrite H. }
  split; [| split; reflexivity].
  intros [] b H; try discriminate; destruct b; split; reflexivity.
Qed.



(** ** The auth middleware *)










Lemma matcher_cons (c : ascii) (rest : string) :
  Middleware.matcher (String c rest) =
  Ascii.eqb c "/"
  && (negb (existsb (fun alt => Middleware.looking_at (Middleware.compile alt) rest)
              Middleware.lookahead)
      && Middleware.no_line_terminator rest).
Proof. destruct c as [[] [] [] [] [] [] [] []]; reflexivity. Qed.









(** The dot of the alternative favicon.ico is the wildcard of the
    regular expression: a path that reads favicon, another character,
    ico is outside the matcher too, and is served without a token. *)
Lemma favicon_lookalike_is_not_gated :
  String.prefix "api/auth" "favicon-ico/reports" = false
  /\ String.prefix "login" "favicon-ico/reports" = false
  /\ String.prefix "_next/static" "favicon-ico/reports" = false
  /\ String.prefix "_next/image" "favicon-ico/reports" = false
  /\ String.prefix "favicon.ico" "favicon-ico/reports" = false
  /\ Middleware.matcher "/favicon-ico/reports" = false
  /\ Middleware.middleware "/favicon-ico/reports" None = Middleware.Serve.
Proof. repeat split; reflexivity. Qed.

(** ** The ingestion gate *)

Section IngestFacts.
Import Ingest.

Variable fingerprint : list byte -> N.

Lemma same_key_true (o : string) (h : N) (d : RawDocument) :
  same_key o h d = true <-> org d = o /\ contentHash d = h.
Proof.
  unfold same_key. now rewrite andb_true_iff, String.eqb_eq, N.eqb_eq.
Qed.

Lemma find_none_filter {A : Type} (p : A -> bool) (l : list A) :
  find p l = None -> filter p l = [].
Proof.
  induction l as [|x l IH]; simpl; [reflexivity |].
  destruct (p x); [discriminate | exact IH].
Qed.

Lemma find_some_filter {A : Type} (p : A -> bool) (l : list A) (x : A) :
  find p l = Some x -> (1 <= List.length (filter p l))%nat.
Proof.
  induction l as [|y l IH]; simpl; [discriminate |].
  destruct (p y); simpl; [lia | exact IH].
Qed.

Lemma find_app_none {A : Type} (p : A -> bool) (l l' : list A) :
  find p l = None -> find p (l ++ l')%list = find p l'.
Proof.
  induction l as [|y l IH]; simpl; [reflexivity |].
  destruct (p y); [discriminate | exact IH].
Qed.

(** The duplicate path: a row under the key is returned as it is, and
    nothing is written. *)
Lemma ingest_existing (env : Collaborators) (s : Store) (o : string)
    (bytes : list byte) (filename mime_ : string) (d : RawDocument) :
  find (same_key o (fingerprint bytes)) (raw_docs s) = Some d ->
  ingest fingerprint env s o bytes filename mime_ =
  (s, inl (mkIngested (id d) (storageRef d) true), []).
Proof. intros H. unfold ingest. now rewrite H. Qed.

(** Every call keeps the uniqueness constraint, whatever its outcome. *)
Lemma ingest_keeps_unique_keys (env : Collaborators) (s : Store) (o : string)
    (bytes : list byte) (filename mime_ : string) :
  unique_keys s ->
  unique_keys (fst (fst (ingest fingerprint env s o bytes filename mime_))).
Proof.
  intros Hu. unfold ingest.
  destruct (find _ (raw_docs s)) eqn:Hfind; [exact Hu |].
  destruct (put_ok env); [| exact Hu].
  destruct (insert_ok env); [| exact Hu].
  intros o' h'. unfold rows_for. simpl.
  rewrite filter_app, length_app. simpl.
  destruct (same_key o' h' _) eqn:K; simpl.
  - apply same_key_true in K. simpl in K. destruct K as [<- <-].
    now rewrite (find_none_filter _ _ Hfind).
  - specialize (Hu o' h'). unfold rows_for in Hu. lia.
Qed.

Lemma empty_store_unique : unique_keys empty_store.
Proof. intros o h. unfold rows_for. simpl. lia. Qed.

(** C3. Ingestion is idempotent. From a store that respects the
    uniqueness constraint, once a call for an org and some bytes has
    succeeded, a second call for the same org and bytes (whatever the
    file name, the mime type and the collaborators' answers) returns
    the first call's document and locator with [duplicate = true],
    emits nothing and leaves the store exactly as the first call left
    it. The store then holds exactly one row under the key, and that
    row is the returned document; over both calls one row and one
    object were added when the document was new, and none when it was
    already known. *)
Theorem ingestion_idempotent (env1 env2 : Collaborators) (s s1 : Store)
    (o : string) (bytes : list byte) (fn1 mime1 fn2 mime2 : string)
    (r1 : IngestResponse) (ev1 : list Notification) :
  unique_keys s ->
  ingest fingerprint env1 s o bytes fn1 mime1 = (s1, inl r1, ev1) ->
  ingest fingerprint env2 s1 o bytes fn2 mime2 =
    (s1, inl (mkIngested (documentId r1) (storageLocator r1) true), [])
  /\ rows_for o (fingerprint bytes) s1 = 1%nat
  /\ (exists d,
        find (same_key o (fingerprint bytes)) (raw_docs s1) = Some d
        /\ id d = documentId r1 /\ storageRef d = storageLocator r1)
  /\ (duplicate r1 = false ->
      List.length (raw_docs s1) = S (List.length (raw_docs s))
      /\ List.length (objects s1) = S (List.length (objects s)))
  /\ (duplicate r1 = true -> s1 = s)
  /\ unique_keys s1.
Proof.
  intros Hu H1.
  assert (Hu1 : unique_keys s1).
  { pose proof (ingest_keeps_unique_keys env1 s o bytes fn1 mime1 Hu) as K.
    now rewrite H1 in K. }
  assert (Hrow : exists d,
             find (same_key o (fingerprint bytes)) (raw_docs s1) = Some d
             /\ id d = documentId r1 /\ storageRef d = storageLocator r1).
  { unfold ingest in H1.
    destruct (find _ (raw_docs s)) as [d |] eqn:Hfind.
    - inversion H1; subst. exists d. auto.
    - destruct (put_ok env1); [| discriminate].
      destruct (insert_ok env1); [| discriminate].
      inversion H1; subst. simpl.
      rewrite (find_app_none _ _ _ Hfind). simpl.
      unfold same_key at 1. simpl. rewrite String.eqb_refl, N.eqb_refl. simpl.
      eexists. repeat split. }
  destruct Hrow as [d [Hd [Hid Hloc]]].
  split; [| split; [| split; [| split; [| split]]]].
  - rewrite (ingest_existing env2 s1 o bytes fn2 mime2 d Hd).
    now rewrite Hid, Hloc.
  - pose proof (find_some_filter _ _ _ Hd) as Hge.
    specialize (Hu1 o (fingerprint bytes)). unfold rows_for in *. lia.
  - exists d. auto.
  - intros Hnew. unfold ingest in H1.
    destruct (find _ (raw_docs s)) as [d0 |].
    + inversion H1; subst. discriminate.
    + destruct (put_ok env1); [| discriminate].
      destruct (insert_ok env1); [| discriminate].
      inversion H1; subst. simpl. rewrite length_app. simpl. lia.
  - intros Hdup. unfold ingest in H1.
    destruct (find _ (raw_docs s)) as [d0 |].
    + now inversion H1.
    + destruct (put_ok env1); [| discriminate].
      destruct (insert_ok env1); [| discriminate].
      inversion H1; subst. discriminate.
  - exact Hu1.
Qed.

End IngestFacts.

(** [ingestion_idempotent] on the empty store: a PDF uploaded twice. *)
Lemma ingestion_idempotent_witness :
  Ingest.unique_keys Ingest.empty_store
  /\ Ingest.rows_for "acme" (Ingest.toy_fingerprint [x25; x50; x44; x46])
       (fst (fst (Ingest.ingest Ingest.toy_fingerprint Ingest.healthy
                    Ingest.empty_store "acme" [x25; x50; x44; x46]
                    "INV-1042.pdf" "application/pdf")))
     = 1%nat.
Proof.
  split; [exact empty_store_unique |].
  exact (proj1 (proj2
    (ingestion_idempotent Ingest.toy_fingerprint Ingest.healthy
       Ingest.healthy Ingest.empty_store _ "acme" [x25; x50; x44; x46]
       "INV-1042.pdf" "application/pdf" "copy.pdf" "application/pdf" _ _
       empty_store_unique eq_refl))).
Defined.

(** ** The validator *)

Section ValidatorFacts.
Import Validator.
Local Open Scope Q_scope.













End ValidatorFacts.



(** [upload_requests_bounded] on an unreachable backend. *)
Lemma upload_requests_bounded_witness :
  Upload.requests
    (fst (Upload.click Upload.show Upload.show Upload.offline
            (Upload.page_with "scan.pdf"))) = ["/api/ingest"]
  \/ Upload.requests
       (fst (Upload.click Upload.show Upload.show Upload.offline
               (Upload.page_with "scan.pdf")))
     = ["/api/ingest";
        Upload.extractEndpoint (Upload.mkFile "scan.pdf" [])].
Proof.
  exact (upload_requests_bounded Upload.show Upload.show Upload.offline
           (Upload.page_with "scan.pdf") (Upload.mkFile "scan.pdf" [])
           eq_refl).
Defined.

(** [successful_upload_completes] on an accepting backend. *)
Lemma successful_upload_completes_witness :
  Upload.status
    (Upload.render (Upload.page_with "lines.json")
       (fst (Upload.click Upload.show Upload.show Upload.accepting
               (Upload.page_with "lines.json")))) = Upload.complete.
Proof.
  exact (proj1 (proj2
    (successful_upload_completes Upload.show Upload.show Upload.accepting
       (Upload.page_with "lines.json") (Upload.mkFile "lines.json" [])
       _ _ eq_refl eq_refl eq_refl eq_refl eq_refl))).
Defined.

(** [rejected_ingest_is_caught] on an unreachable backend. *)
Lemma rejected_ingest_is_caught_witness :
  Upload.errorMessage
    (Upload.render (Upload.page_with "scan.pdf")
       (fst (Upload.click Upload.show Upload.show Upload.offline
               (Upload.page_with "scan.pdf"))))
  = "Unexpected error: Failed to fetch".
Proof.
  exact (proj2 (proj2 (proj2
    (rejected_ingest_is_caught Upload.show Upload.show Upload.offline
       (Upload.page_with "scan.pdf") (Upload.mkFile "scan.pdf" [])
       [("message", Js.VStr "Failed to fetch")]
       eq_refl eq_refl eq_refl)))).
Defined.

(** [vendors_items_agree] on a bare list of two vendors. *)
Lemma vendors_items_agree_witness :
  Pages.vendors_items
    (Js.VArr [Js.VObj [("name", Js.VStr "Acme")]; Js.VObj []] [])
  = Pages.items
      (Js.VArr [Js.VObj [("name", Js.VStr "Acme")]; Js.VObj []] []).
Proof.
  apply vendors_items_agree.
  intros xs ps H. right. reflexivity.
Defined.

(* ================================================================= *)
(** * Further properties of the client *)

(** ** Operators and indices *)

Lemma or_str_nonempty (a b : string) : b <> "" -> JsOps.or_str a b <> "".
Proof.
  intros Hb. unfold JsOps.or_str.
  destruct (String.eqb a "") eqn:E; [exact Hb |].
  now apply String.eqb_neq in E.
Qed.

Lemma or_str_left (a b : string) : a <> "" -> JsOps.or_str a b = a.
Proof.
  intros Ha. unfold JsOps.or_str.
  apply String.eqb_neq in Ha. now rewrite Ha.
Qed.

Lemma String_of_nat_inj (n m : nat) :
  JsOps.String_of_nat n = JsOps.String_of_nat m -> n = m.
Proof.
  unfold JsOps.String_of_nat. intros H.
  apply DecimalNat.Unsigned.to_uint_inj.
  pose proof (NilEmpty.usu (Nat.to_uint n)) as A.
  pose proof (NilEmpty.usu (Nat.to_uint m)) as B.
  rewrite H in A. congruence.
Qed.

Lemma String_of_nat_nonempty (n : nat) : JsOps.String_of_nat n <> "".
Proof.
  unfold JsOps.String_of_nat. intros H.
  pose proof (NilEmpty.usu (Nat.to_uint n)) as A. rewrite H in A.
  simpl in A. injection A as A.
  pose proof (DecimalNat.Unsigned.of_to n) as B. rewrite <- A in B.
  simpl in B. subst n. discriminate.
Qed.

Lemma coalesce_present (a b : Js.value) :
  JsOps.nullish a = false -> JsOps.coalesce a b = a.
Proof. unfold JsOps.coalesce. now intros ->. Qed.

Lemma coalesce_missing (a b : Js.value) :
  JsOps.nullish a = true -> JsOps.coalesce a b = b.
Proof. unfold JsOps.coalesce. now intros ->. Qed.

Lemma length_mapi_from {A B : Type} (f : A -> nat -> B) (xs : list A) (i : nat) :
  List.length (JsOps.mapi_from i f xs) = List.length xs.
Proof.
  revert i; induction xs as [|x xs IH]; intros i; simpl;
    [reflexivity | now rewrite IH].
Qed.

Lemma in_mapi_from {A B : Type} (f : A -> nat -> B) (xs : list A) (i : nat)
    (y : B) :
  In y (JsOps.mapi_from i f xs) -> exists x j, In x xs /\ y = f x j.
Proof.
  revert i; induction xs as [|x xs IH]; intros i; simpl; [tauto |].
  intros [<- | H]; [eauto |].
  destruct (IH _ H) as [x' [j [Hin ->]]]. eauto.
Qed.

(** ** The alerts page *)

Section AlertCells.
Import Js JsOps.

Variable String_of_number : float -> string.

(** The id of an alert is read through [id ?? alert_id ?? uuid]: the
    first of the three that is neither undefined nor null decides
    alone. A string there is the id; anything else that is not a
    number (a boolean, an object, an array) gives the empty id, and
    the later keys are not consulted even when they hold a usable
    id. *)
Theorem alert_id_first_present (obj : value) :
  (forall s, get "id" obj = VStr s ->
             AlertsPage.pickIdLike String_of_number obj = s)
  /\ (forall s, nullish (get "id" obj) = true ->
                get "alert_id" obj = VStr s ->
                AlertsPage.pickIdLike String_of_number obj = s)
  /\ (forall s, nullish (get "id" obj) = true ->
                nullish (get "alert_id" obj) = true ->
                get "uuid" obj = VStr s ->
                AlertsPage.pickIdLike String_of_number obj = s)
  /\ (nullish (get "id" obj) = false ->
      (forall s, get "id" obj <> VStr s) ->
      (forall n, get "id" obj <> VNum n) ->
      AlertsPage.pickIdLike String_of_number obj = "")
  /\ (nullish (get "id" obj) = true ->
      nullish (get "alert_id" obj) = true ->
      nullish (get "uuid" obj) = true ->
      AlertsPage.pickIdLike String_of_number obj = "").
Proof.
  unfold AlertsPage.pickIdLike. repeat split.
  - intros s H. rewrite H. reflexivity.
  - intros s H1 H2. rewrite (coalesce_missing _ _ H1), H2. reflexivity.
  - intros s H1 H2 H3.
    rewrite (coalesce_missing _ _ H1), (coalesce_missing _ _ H2), H3.
    reflexivity.
  - intros H Hs Hn. rewrite (coalesce_present _ _ H).
    destruct (get "id" obj) eqn:E; try reflexivity; try discriminate.
    + now elim (Hn n).
    + now elim (Hs s).
  - intros H1 H2 H3.
    rewrite (coalesce_missing _ _ H1), (coalesce_missing _ _ H2).
    destruct (get "uuid" obj); try discriminate; reflexivity.
Qed.

Lemma alert_keys_from (xs : list value) (i : nat) :
  (forall x, In x xs -> AlertsPage.pickIdLike String_of_number x = "") ->
  map AlertsPage.key (mapi_from i (AlertsPage.row String_of_number) xs)
  = map String_of_nat (seq i (List.length xs)).
Proof.
  revert i; induction xs as [|x xs IH]; intros i H; simpl; [reflexivity |].
  rewrite (H x (or_introl eq_refl)). simpl. f_equal.
  apply IH. intros y Hy. apply H. now right.
Qed.

(** The React key of an alert row, [pickIdLike(alert) || String(idx)],
    is never empty; and when no alert of the response has a usable id
    the keys are the row indices in decimal, so no two rows share a
    key. *)
Theorem alert_row_keys (raw : value) :
  (forall r, In r (AlertsPage.table String_of_number raw) ->
             AlertsPage.key r <> "")
  /\ ((forall x, In x (Pages.rows raw) ->
                 AlertsPage.pickIdLike String_of_number x = "") ->
      map AlertsPage.key (AlertsPage.table String_of_number raw)
      = map String_of_nat (seq 0 (List.length (Pages.items raw)))
      /\ NoDup (map AlertsPage.key (AlertsPage.table String_of_number raw))).
Proof.
  split.
  - intros r Hr. unfold AlertsPage.table, mapi in Hr.
    apply in_mapi_from in Hr. destruct Hr as [x [j [_ ->]]]. simpl.
    apply or_str_nonempty, String_of_nat_nonempty.
  - intros H. unfold AlertsPage.table, mapi.
    rewrite (alert_keys_from _ 0 H).
    assert (L : List.length (Pages.rows raw) = List.length (Pages.items raw)).
    { unfold Pages.rows. apply length_map. }
    rewrite L. split; [reflexivity |].
    apply Injective_map_NoDup; [| apply seq_NoDup].
    intros n m. apply String_of_nat_inj.
Qed.

End AlertCells.

(** ** The invoices page *)

Section InvoiceCells.
Import Js JsOps.

Variable String_of_number : float -> string.
Variable toFixed2 : float -> string.

(** No cell of an invoice row is drawn empty, whatever the row object
    holds: the key falls back to the index, the invoice number to the
    id and then to "Invoice #" with the position, and the other five
    cells to a dash, also when the data holds the empty string. *)
Theorem invoice_cells_never_empty (inv : value) (idx : nat) :
  let r := InvoicesPage.row String_of_number toFixed2 inv idx in
  InvoicesPage.key r <> ""
  /\ InvoicesPage.invoiceNo r <> ""
  /\ InvoicesPage.status r <> ""
  /\ InvoicesPage.total r <> ""
  /\ InvoicesPage.currency r <> ""
  /\ InvoicesPage.invoiceDate r <> ""
  /\ InvoicesPage.vendorId r <> "".
Proof.
  simpl. repeat split; apply or_str_nonempty;
    try discriminate; apply String_of_nat_nonempty.
Qed.

(** What the invoice number cell shows: the invoice number when the
    row has a non-empty one, else the id when that is non-empty, else
    "Invoice #" with the one-based position. *)
Theorem invoice_number_fallbacks (inv : value) (idx : nat) :
  let r := InvoicesPage.row String_of_number toFixed2 inv idx in
  (InvoicesPage.pickInvoiceNoLike inv <> "" ->
   InvoicesPage.invoiceNo r = InvoicesPage.pickInvoiceNoLike inv)
  /\ (InvoicesPage.pickInvoiceNoLike inv = "" ->
      InvoicesPage.pickIdLike String_of_number inv <> "" ->
      InvoicesPage.invoiceNo r = InvoicesPage.pickIdLike String_of_number inv)
  /\ (InvoicesPage.pickInvoiceNoLike inv = "" ->
      InvoicesPage.pickIdLike String_of_number inv = "" ->
      InvoicesPage.invoiceNo r = "Invoice #" ++ String_of_nat (idx + 1)).
Proof.
  simpl. repeat split.
  - intros H. now rewrite (or_str_left _ _ H), (or_str_left _ _ H).
  - intros H1 H2. rewrite H1. unfold or_str at 2. simpl.
    now rewrite (or_str_left _ _ H2).
  - intros H1 H2. rewrite H1, H2. reflexivity.
Qed.

(** The invoices page draws exactly one of three sections. A truthy
    error hides the counter and the data, whatever the data is. With a
    falsy error the counter shows the number of normalized items; the
    table is drawn only when there is at least one item and then has
    one row per item, and otherwise (an empty list or a response of
    another shape) the page says there are no invoices yet. *)
Theorem invoices_page_sections (res : Api.FetchResponse) :
  let p := InvoicesPage.page String_of_number toFixed2 res in
  (truthy (Api.error res) = true ->
   p = ("", ListView.ErrorPanel (Api.error res)))
  /\ (truthy (Api.error res) = false ->
      fst p = String_of_nat (List.length (Pages.items (Api.data res)))
              ++ " total"
      /\ (Pages.items (Api.data res) = [] -> snd p = ListView.EmptyPanel)
      /\ (Pages.items (Api.data res) <> [] ->
          snd p = ListView.Table
                    (InvoicesPage.table String_of_number toFixed2
                       (Api.data res))))
  /\ (forall rs, snd p = ListView.Table rs ->
                 rs <> []
                 /\ List.length rs = List.length (Pages.items (Api.data res))
                 /\ truthy (Api.error res) = false).
Proof.
  unfold InvoicesPage.page, ListView.view, ListView.counter. simpl.
  assert (L : List.length (InvoicesPage.table String_of_number toFixed2
                             (Api.data res))
              = List.length (Pages.items (Api.data res))).
  { unfold InvoicesPage.table, mapi, Pages.rows.
    now rewrite length_mapi_from, length_map. }
  assert (R : List.length (Pages.rows (Api.data res))
              = List.length (Pages.items (Api.data res))).
  { unfold Pages.rows. apply length_map. }
  destruct (truthy (Api.error res)) eqn:E.
  - repeat split; discriminate.
  - split; [discriminate |]. split.
    + intros _. rewrite R. split; [reflexivity |]. split.
      * intros H. rewrite H in L.
        destruct (InvoicesPage.table _ _ _); [reflexivity | discriminate].
      * intros H.
        destruct (InvoicesPage.table _ _ _) eqn:T; [| reflexivity].
        destruct (Pages.items (Api.data res)); [now elim H | discriminate].
    + intros rs H.
      destruct (InvoicesPage.table _ _ _) eqn:T; [discriminate |].
      injection H as <-. rewrite <- L. repeat split. discriminate.
Qed.

End InvoiceCells.

(** ** The dashboard *)

Lemma app_word_nonempty (a b : string) (c : ascii) : a ++ String c b <> "".
Proof. destruct a; discriminate. Qed.

Section DashboardFacts.
Import Js JsOps.

Variable String_of_number : float -> string.

(** The dashboard counts the whole collection but lists only its first
    five entries, in order, each turned into an object; a collection of
    up to five entries is listed whole. Every label of the list is
    non-empty, and the error section is drawn exactly when one of the
    two errors is truthy. *)
Theorem dashboard_recent (data : value) :
  List.length (Dashboard.recent data) = Nat.min 5 (Dashboard.count data)
  /\ Dashboard.recent data
     = firstn 5 (map Pages.asObject (Dashboard.collection data))
  /\ (Dashboard.count data <= 5 ->
      Dashboard.recent data = map Pages.asObject (Dashboard.collection data))
  /\ (forall word l,
        In l (Dashboard.recentLabels String_of_number word data) -> l <> "")
  /\ (forall vendorsError invoicesError,
        Dashboard.hasAnyError vendorsError invoicesError
        = truthy vendorsError || truthy invoicesError).
Proof.
  unfold Dashboard.recent, Dashboard.count.
  split; [now rewrite length_map, length_firstn |].
  split; [now rewrite firstn_map |].
  split; [intros H; now rewrite firstn_all2 |].
  split.
  - intros word l H. unfold Dashboard.recentLabels, mapi in H.
    apply in_mapi_from in H. destruct H as [x [j [_ ->]]].
    unfold Dashboard.label. apply or_str_nonempty.
    exact (app_word_nonempty word _ " ").
  - intros v i. unfold Dashboard.hasAnyError, or_else.
    destruct (truthy v) eqn:E; [now rewrite E | reflexivity].
Qed.

End DashboardFacts.

(** ** The navigation *)

Lemma prefix_cons (a b : ascii) (s t : string) :
  String.prefix (String a s) (String b t) = Ascii.eqb a b && String.prefix s t.
Proof.
  simpl. destruct (ascii_dec a b) as [-> | N].
  - now rewrite Ascii.eqb_refl.
  - apply Ascii.eqb_neq in N. now rewrite N.
Qed.

Lemma prefix_nil (s : string) : String.prefix "" s = true.
Proof. destruct s; reflexivity. Qed.

(** At most one link of the sidebar is drawn active, whatever the
    path: no link's target is a prefix of another's. A path below a
    section keeps that section's link active, and so does any path
    that merely begins with the section's target. *)
Theorem nav_at_most_one_active (pathname : string) :
  List.length (Shell.activeLabels pathname) <= 1
  /\ (forall rest,
        Shell.activeLabels ("/dashboard" ++ rest) = ["Dashboard"]
        /\ Shell.activeLabels ("/uploads" ++ rest) = ["Uploads"]
        /\ Shell.activeLabels ("/invoices" ++ rest) = ["Invoices"]
        /\ Shell.activeLabels ("/vendors" ++ rest) = ["Vendors"]
        /\ Shell.activeLabels ("/alerts" ++ rest) = ["Alerts"]).
Proof.
  split;
    [| intros rest; repeat split;
       unfold Shell.activeLabels, Shell.nav, Shell.active;
       cbn [filter fst String.append];
       rewrite !prefix_cons, ?prefix_nil; reflexivity].
  destruct pathname as [|c1 [|c2 rest]]; [simpl; lia | |].
  - unfold Shell.activeLabels, Shell.nav, Shell.active.
    cbn [filter fst]. rewrite !prefix_cons. cbn [String.prefix].
    rewrite !andb_false_r. simpl. lia.
  - unfold Shell.activeLabels, Shell.nav, Shell.active.
    cbn [filter fst]. rewrite !prefix_cons.
    destruct (Ascii.eqb "/" c1); cbn [andb map List.length]; [| lia].
    destruct (Ascii.eqb "d" c2) eqn:Ed;
      [apply Ascii.eqb_eq in Ed; subst c2; cbn [Ascii.eqb Bool.eqb andb];
       destruct (String.prefix _ rest); simpl; lia |].
    destruct (Ascii.eqb "u" c2) eqn:Eu;
      [apply Ascii.eqb_eq in Eu; subst c2; cbn [Ascii.eqb Bool.eqb andb];
       destruct (String.prefix _ rest); simpl; lia |].
    destruct (Ascii.eqb "i" c2) eqn:Ei;
      [apply Ascii.eqb_eq in Ei; subst c2; cbn [Ascii.eqb Bool.eqb andb];
       destruct (String.prefix _ rest); simpl; lia |].
    destruct (Ascii.eqb "v" c2) eqn:Ev;
      [apply Ascii.eqb_eq in Ev; subst c2; cbn [Ascii.eqb Bool.eqb andb];
       destruct (String.prefix _ rest); simpl; lia |].
    cbn [andb]. destruct (Ascii.eqb "a" c2 && _); simpl; lia.
Qed.

(** ** The sections behind the gate *)

(** Every target of the sidebar, and every path that continues one
    (without a line break), is covered by the matcher, and so is the
    root path: none of them is served without a token. The sign-in
    page and the auth API are outside the matcher, so the redirect to
    sign in is itself never gated. *)
Theorem sections_are_gated (rest : string) :
  Middleware.no_line_terminator rest = true ->
  (forall item, In item Shell.nav ->
                Middleware.matcher (fst item ++ rest) = true
                /\ Middleware.middleware (fst item ++ rest) None
                   = Middleware.RedirectToSignIn)
  /\ Middleware.matcher "/" = true
  /\ Middleware.matcher ("/login" ++ rest) = false
  /\ Middleware.matcher ("/api/auth" ++ rest) = false.
Proof.
  intros Hnl.
  assert (M : forall item, In item Shell.nav ->
                           Middleware.matcher (fst item ++ rest) = true).
  { intros item Hin. unfold Shell.nav in Hin. simpl in Hin.
    destruct Hin as [<- | [<- | [<- | [<- | [<- | []]]]]];
      cbn [fst String.append]; rewrite matcher_cons; simpl; exact Hnl. }
  split.
  - intros item Hin. split; [now apply M |].
    unfold Middleware.middleware. rewrite (M item Hin).
    unfold Shell.nav in Hin. simpl in Hin.
    destruct Hin as [<- | [<- | [<- | [<- | [<- | []]]]]]; reflexivity.
  - repeat split;
      try (cbn [String.append]; rewrite matcher_cons; reflexivity).
Qed.

(** ** The base URL *)

Lemma strip_app_slash (s : string) :
  BaseUrl.strip_trailing_slash (s ++ "/") = s.
Proof.
  induction s as [|c s IH]; [reflexivity |].
  change (String c s ++ "/") with (String c (s ++ "/")).
  cbn [BaseUrl.strip_trailing_slash]. rewrite IH.
  destruct s; reflexivity.
Qed.

Lemma strip_without_slash (s : string) :
  BaseUrl.ends_with_slash s = false -> BaseUrl.strip_trailing_slash s = s.
Proof.
  induction s as [|c s IH]; [reflexivity |].
  destruct s as [|d s].
  - simpl. now intros ->.
  - intros H. change (BaseUrl.ends_with_slash (String d s) = false) in H.
    change (String c (BaseUrl.strip_trailing_slash (String d s))
            = String c (String d s)).
    now rewrite (IH H).
Qed.

Lemma ends_with_slash_app (s : string) :
  BaseUrl.ends_with_slash (s ++ "/") = true.
Proof.
  induction s as [|c s IH]; [reflexivity |].
  change (String c s ++ "/") with (String c (s ++ "/")).
  destruct (s ++ "/") eqn:E; [destruct s; discriminate | exact IH].
Qed.

Lemma ends_with_slash_split (s : string) :
  BaseUrl.ends_with_slash s = true -> exists t, s = t ++ "/".
Proof.
  induction s as [|c s IH]; [discriminate |].
  destruct s as [|d s].
  - simpl. intros H. apply Ascii.eqb_eq in H. subst. now exists "".
  - intros H. change (BaseUrl.ends_with_slash (String d s) = true) in H.
    destruct (IH H) as [t Ht]. exists (String c t). simpl. now rewrite Ht.
Qed.

Lemma length_app_slash (t : string) :
  String.length (t ++ "/") = S (String.length t).
Proof. induction t as [|c t IH]; simpl; [reflexivity | now rewrite IH]. Qed.

(** The base URL of the typed client is the configured URL with one
    trailing slash removed, so a path that starts with a slash can be
    appended: a URL that ends in a slash loses exactly that slash, any
    other URL is kept as it is. Only an unset variable gives the
    default; a variable set to the empty text gives the empty base
    URL. Of two trailing slashes one stays. *)
Theorem base_url_trailing_slash :
  (forall s, BaseUrl.baseUrl (Some (s ++ "/")) = s)
  /\ (forall s, BaseUrl.ends_with_slash s = false ->
                BaseUrl.baseUrl (Some s) = s)
  /\ (forall s, BaseUrl.ends_with_slash s = true ->
                String.length s = S (String.length (BaseUrl.baseUrl (Some s))))
  /\ BaseUrl.baseUrl None = "http://localhost:8000"
  /\ BaseUrl.baseUrl (Some "") = ""
  /\ (forall s, BaseUrl.ends_with_slash (BaseUrl.baseUrl (Some (s ++ "//")))
                = true).
Proof.
  split; [exact strip_app_slash |].
  split; [exact strip_without_slash |].
  split.
  { intros s H. destruct (ends_with_slash_split s H) as [t ->]. simpl.
    rewrite strip_app_slash. apply length_app_slash. }
  split; [reflexivity |]. split; [reflexivity |].
  intros s. simpl.
  replace (s ++ "//") with ((s ++ "/") ++ "/")
    by (now rewrite string_app_assoc).
  rewrite strip_app_slash. apply ends_with_slash_app.
Qed.

(** The two API clients of the repository compute the same base URL
    exactly when the variable is unset or does not end in a slash: the
    package's client keeps a trailing slash that the application's
    client removes. *)
Theorem base_urls_agree (env : option string) :
  BaseUrl.baseUrl env = BaseUrl.package_baseUrl env <->
  (forall s, env = Some s -> BaseUrl.ends_with_slash s = false).
Proof.
  destruct env as [s |]; simpl.
  - split.
    + intros H t Ht. injection Ht as <-.
      destruct (BaseUrl.ends_with_slash s) eqn:E; [| reflexivity].
      destruct (ends_with_slash_split s E) as [t ->].
      rewrite strip_app_slash in H.
      assert (L : String.length t = String.length (t ++ "/"))
        by now rewrite <- H.
      rewrite length_app_slash in L. lia.
    + intros H. apply strip_without_slash. now apply H.
  - split; [intros _ s H; discriminate | reflexivity].
Qed.

(** ** The auth callbacks *)

Lemma lookup_set_same (k : string) (v : Js.value)
    (ps : list (string * Js.value)) :
  Js.lookup k (JsOps.set k v ps) = Some v.
Proof.
  induction ps as [|[k' v'] ps IH]; simpl.
  - now rewrite String.eqb_refl.
  - destruct (String.eqb k k') eqn:E; simpl.
    + now rewrite String.eqb_refl.
    + now rewrite E.
Qed.

Lemma lookup_set_other (k k' : string) (v : Js.value)
    (ps : list (string * Js.value)) :
  k' <> k -> Js.lookup k' (JsOps.set k v ps) = Js.lookup k' ps.
Proof.
  intros N. induction ps as [|[k0 v0] ps IH]; simpl.
  - apply String.eqb_neq in N. now rewrite N.
  - destruct (String.eqb k k0) eqn:E; simpl.
    + apply String.eqb_eq in E. subst k0.
      apply String.eqb_neq in N. now rewrite N.
    + destruct (String.eqb k' k0); [reflexivity | exact IH].
Qed.

Lemma get_set_same (k : string) (v : Js.value)
    (ps : list (string * Js.value)) :
  Js.get k (Js.VObj (JsOps.set k v ps)) = v.
Proof. simpl. now rewrite lookup_set_same. Qed.

Lemma get_set_other (k k' : string) (v : Js.value)
    (ps : list (string * Js.value)) :
  k' <> k -> Js.get k' (Js.VObj (JsOps.set k v ps)) = Js.get k' (Js.VObj ps).
Proof. intros N. simpl. now rewrite (lookup_set_other _ _ _ _ N). Qed.

(** The jwt callback touches one claim only. On the sign-in call (a
    truthy user) the token's sub becomes the user's id; on every later
    call (no user) the token comes back as it was; and in both cases
    every claim other than sub keeps its value. *)
Theorem jwt_keeps_other_claims (token : list (string * Js.value))
    (user : Js.value) :
  (Js.truthy user = true ->
   Js.get "sub" (Js.VObj (AuthOptions.jwt token user)) = Js.get "id" user)
  /\ (Js.truthy user = false -> AuthOptions.jwt token user = token)
  /\ (forall k, k <> "sub" ->
                Js.get k (Js.VObj (AuthOptions.jwt token user))
                = Js.get k (Js.VObj token)).
Proof.
  unfold AuthOptions.jwt. destruct (Js.truthy user); repeat split;
    try discriminate; intros.
  - apply get_set_same.
  - now apply get_set_other.
Qed.

Lemma session_with_user (sess ps : list (string * Js.value))
    (token : Js.value) :
  Js.get "user" (Js.VObj sess) = Js.VObj ps ->
  Js.truthy (AuthOptions.token_sub token) = true ->
  AuthOptions.session sess token
  = Some (JsOps.set "user"
            (Js.VObj (JsOps.set "id" (AuthOptions.token_sub token) ps)) sess).
Proof.
  intros Hu Hs. unfold AuthOptions.session. now rewrite Hu, Hs.
Qed.

Lemma session_without_sub (sess : list (string * Js.value)) (token : Js.value) :
  Js.truthy (AuthOptions.token_sub token) = false ->
  AuthOptions.session sess token = Some sess.
Proof.
  intros H. unfold AuthOptions.session. rewrite H. now rewrite andb_false_r.
Qed.

(** The session callback exposes the user id only when there is a
    session user and the token has a truthy sub: then the id of the
    session's user is the token's sub, every other field of the user
    and of the session is kept; otherwise the session comes back as it
    was (also when the token is null). *)
Theorem session_exposes_sub (sess : list (string * Js.value))
    (token : Js.value) :
  (forall ps,
     Js.get "user" (Js.VObj sess) = Js.VObj ps ->
     Js.truthy (AuthOptions.token_sub token) = true ->
     exists sess',
       AuthOptions.session sess token = Some sess'
       /\ Js.get "id" (Js.get "user" (Js.VObj sess'))
          = AuthOptions.token_sub token
       /\ (forall k, k <> "id" ->
                     Js.get k (Js.get "user" (Js.VObj sess'))
                     = Js.get k (Js.VObj ps))
       /\ (forall k, k <> "user" ->
                     Js.get k (Js.VObj sess') = Js.get k (Js.VObj sess)))
  /\ (Js.truthy (Js.get "user" (Js.VObj sess)) = false ->
      AuthOptions.session sess token = Some sess)
  /\ (Js.truthy (AuthOptions.token_sub token) = false ->
      AuthOptions.session sess token = Some sess)
  /\ (JsOps.nullish token = true ->
      AuthOptions.session sess token = Some sess).
Proof.
  repeat split.
  - intros ps Hu Hs. rewrite (session_with_user sess ps token Hu Hs).
    eexists. split; [reflexivity |].
    rewrite get_set_same. repeat split.
    + apply get_set_same.
    + intros k N. now apply get_set_other.
    + intros k N. now apply get_set_other.
  - intros H. unfold AuthOptions.session. now rewrite H.
  - apply session_without_sub.
  - intros H. apply session_without_sub. unfold AuthOptions.token_sub.
    now rewrite H.
Qed.

(** Sign-in end to end: the id the jwt callback stores on the token at
    sign-in is the id the session callback then puts on the session's
    user, provided the id is truthy; a user whose id is falsy (zero or
    the empty string) gets a session without an id. *)
Theorem sign_in_round_trip (token sess ps : list (string * Js.value))
    (user : Js.value) :
  Js.truthy user = true ->
  Js.get "user" (Js.VObj sess) = Js.VObj ps ->
  (Js.truthy (Js.get "id" user) = true ->
   exists sess',
     AuthOptions.session sess (Js.VObj (AuthOptions.jwt token user))
     = Some sess'
     /\ Js.get "id" (Js.get "user" (Js.VObj sess')) = Js.get "id" user)
  /\ (Js.truthy (Js.get "id" user) = false ->
      AuthOptions.session sess (Js.VObj (AuthOptions.jwt token user))
      = Some sess).
Proof.
  intros Hu Hs.
  assert (S : AuthOptions.token_sub (Js.VObj (AuthOptions.jwt token user))
              = Js.get "id" user).
  { unfold AuthOptions.token_sub. cbn [JsOps.nullish].
    unfold AuthOptions.jwt. rewrite Hu. apply get_set_same. }
  split.
  - intros Hid. rewrite (session_with_user sess ps _ Hs); [| now rewrite S].
    eexists. split; [reflexivity |].
    now rewrite get_set_same, get_set_same, S.
  - intros Hid. apply session_without_sub. now rewrite S.
Qed.

(** ** The uploads page: where a click can end *)

Section UploadEndings.
Import Upload.

Variable JSON_stringify : Js.value -> string.
Variable ToString : Js.value -> string.
Variable api : string -> File -> Api.outcome.

Ltac split_outcomes :=
  repeat match goal with
    | |- context [api ?p ?b] =>
        let o := fresh "o" in
        destruct (api p b) as [o | o]; cbn
    | |- context [Js.truthy ?v] => destruct (Js.truthy v); cbn
    | |- context [match ?e with
                  | Js.VUndefined => _ | Js.VNull => _ | Js.VBool _ => _
                  | Js.VNum _ => _ | Js.VStr _ => _ | Js.VArr _ _ => _
                  | Js.VObj _ => _ end] => destruct e; cbn
    end.

(** With a file selected a click never ends mid-way: whatever the
    backend answers, and also when a request rejects, the last status
    is "complete" or "error", so the page is not left processing, the
    selected file is kept and the Upload button is enabled again. *)
Theorem upload_never_left_processing (st : PageState) (f : File) :
  file st = Some f ->
  let st' := render st (fst (click JSON_stringify ToString api st)) in
  (status st' = complete \/ status st' = error)
  /\ file st' = Some f
  /\ UploadView.isProcessing st' = false
  /\ UploadView.button_disabled st' = false.
Proof.
  intros Hfile. unfold click. rewrite Hfile.
  unfold UploadView.button_disabled, UploadView.isProcessing.
  cbn. split_outcomes; rewrite ?Hfile; auto.
Qed.

(** A click that ends in "error" after the handler returned always
    carries a non-empty message, so the error panel is drawn; the one
    run that leaves "error" without a message is the one where the
    catch block itself fails (the rejection value is null or
    undefined). And the result cell changes only in a run that ends in
    "complete": after any other run it still holds what it held
    before. *)
Theorem upload_error_is_explained (st : PageState) (f : File) :
  file st = Some f ->
  let run := click JSON_stringify ToString api st in
  let st' := render st (fst run) in
  (snd run = Returned -> status st' = error ->
   UploadView.error_panel_shown st' = true)
  /\ (snd run = Crashed ->
      status st' = error /\ errorMessage st' = ""
      /\ UploadView.error_panel_shown st' = false)
  /\ (status st' <> complete -> resultData st' = resultData st)
  /\ (UploadView.success_panel_shown st' = true -> errorMessage st' = "").
Proof.
  intros Hfile. unfold click. rewrite Hfile.
  unfold UploadView.error_panel_shown, UploadView.success_panel_shown.
  cbn. split_outcomes; repeat split; intros; try reflexivity;
    try discriminate; try congruence.
Qed.

End UploadEndings.

(** ** Letter case of the file name *)

Lemma lower_ascii_dot (c : ascii) :
  Ascii.eqb (Js.lower_ascii c) "." = Ascii.eqb c ".".
Proof. destruct c as [[] [] [] [] [] [] [] []]; reflexivity. Qed.

Lemma toLowerCase_rev_string (s acc : string) :
  Js.toLowerCase (Js.rev_string acc s)
  = Js.rev_string (Js.toLowerCase acc) (Js.toLowerCase s).
Proof.
  revert acc; induction s as [|c s IH]; intros acc; simpl;
    [reflexivity | now rewrite IH].
Qed.

Lemma split_acc_toLowerCase (s cur : string) :
  Js.split_acc "." (Js.toLowerCase cur) (Js.toLowerCase s)
  = map Js.toLowerCase (Js.split_acc "." cur s).
Proof.
  revert cur; induction s as [|c s IH]; intros cur; simpl.
  - now rewrite (toLowerCase_rev_string cur "").
  - rewrite lower_ascii_dot. destruct (Ascii.eqb c "."); simpl.
    + rewrite (toLowerCase_rev_string cur ""). f_equal. apply (IH "").
    + apply (IH (String c cur)).
Qed.

Lemma pop_map (g : string -> string) (xs : list string) :
  Js.pop (map g xs) = option_map g (Js.pop xs).
Proof.
  induction xs as [|x [|y xs] IH]; try reflexivity.
  exact IH.
Qed.

Lemma fileExt_of_lowered_name (f : Upload.File) :
  Upload.fileExt f = Js.pop (Js.split "." (Js.toLowerCase (Upload.name f))).
Proof.
  unfold Upload.fileExt, Js.split.
  change (Js.split_acc "." "" (Js.toLowerCase (Upload.name f)))
    with (Js.split_acc "." (Js.toLowerCase "") (Js.toLowerCase (Upload.name f))).
  rewrite split_acc_toLowerCase. now rewrite pop_map.
Qed.

(** The choice of the extraction endpoint does not depend on the
    letter case of the file name: two files whose names (ASCII text)
    differ only in case are sent to the same endpoint. Lower-casing
    goes character by character and neither makes nor removes a dot,
    so it commutes with taking the last piece. *)
Theorem dispatch_ignores_letter_case (f g : Upload.File) :
  Js.toLowerCase (Upload.name f) = Js.toLowerCase (Upload.name g) ->
  Upload.fileExt f = Upload.fileExt g
  /\ Upload.isPdf f = Upload.isPdf g
  /\ Upload.extractEndpoint f = Upload.extractEndpoint g.
Proof.
  intros H.
  assert (E : Upload.fileExt f = Upload.fileExt g)
    by now rewrite !fileExt_of_lowered_name, H.
  unfold Upload.extractEndpoint, Upload.isPdf. rewrite E. auto.
Qed.

(** ** The further properties at work *)

(** [dispatch_ignores_letter_case] on two spellings of one name. *)
Lemma dispatch_ignores_letter_case_witness :
  Upload.extractEndpoint (Upload.mkFile "Scan.Final.PDF" [])
  = Upload.extractEndpoint (Upload.mkFile "scan.final.pdf" [x25]).
Proof.
  exact (proj2 (proj2
    (dispatch_ignores_letter_case (Upload.mkFile "Scan.Final.PDF" [])
       (Upload.mkFile "scan.final.pdf" [x25]) eq_refl))).
Defined.

(** [sections_are_gated] on the page of one invoice. *)
Lemma sections_are_gated_witness :
  Middleware.matcher "/invoices/42" = true
  /\ Middleware.middleware "/invoices/42" None = Middleware.RedirectToSignIn.
Proof.
  exact (proj1 (sections_are_gated "/42" eq_refl)
           ("/invoices", "Invoices")
           (or_intror (or_intror (or_introl eq_refl)))).
Defined.

(** [sign_in_round_trip] on a fresh token and a session that names the
    user by e-mail. *)
Lemma sign_in_round_trip_witness :
  exists sess',
    AuthOptions.session
      [("user", Js.VObj [("email", Js.VStr "ops@acme.test")]);
       ("expires", Js.VStr "2026-01-01")]
      (Js.VObj
         (AuthOptions.jwt [("email", Js.VStr "ops@acme.test")]
            (Js.VObj [("id", Js.VStr "u_17")])))
    = Some sess'
    /\ Js.get "id" (Js.get "user" (Js.VObj sess')) = Js.VStr "u_17".
Proof.
  exact (proj1
    (sign_in_round_trip [("email", Js.VStr "ops@acme.test")]
       [("user", Js.VObj [("email", Js.VStr "ops@acme.test")]);
        ("expires", Js.VStr "2026-01-01")]
       [("email", Js.VStr "ops@acme.test")]
       (Js.VObj [("id", Js.VStr "u_17")]) eq_refl eq_refl) eq_refl).
Defined.

(** [upload_never_left_processing] when the backend cannot be
    reached. *)
Lemma upload_never_left_processing_witness :
  UploadView.button_disabled
    (Upload.render (Upload.page_with "scan.pdf")
       (fst (Upload.click Upload.show Upload.show Upload.offline
               (Upload.page_with "scan.pdf")))) = false.
Proof.
  exact (proj2 (proj2 (proj2
    (upload_never_left_processing Upload.show Upload.show Upload.offline
       (Upload.page_with "scan.pdf") (Upload.mkFile "scan.pdf" [])
       eq_refl)))).
Defined.

(** [upload_error_is_explained] on a failed ingest after an earlier
    result. *)
Lemma upload_error_is_explained_witness :
  UploadView.error_panel_shown
    (Upload.render (Upload.page_with "lines.csv")
       (fst (Upload.click Upload.show Upload.show
               (Upload.ingest_fails_with
                  (Js.VObj [("detail", Js.VStr "storage unavailable")]))
               (Upload.page_with "lines.csv")))) = true.
Proof.
  exact (proj1
    (upload_error_is_explained Upload.show Upload.show
       (Upload.ingest_fails_with
          (Js.VObj [("detail", Js.VStr "storage unavailable")]))
       (Upload.page_with "lines.csv") (Upload.mkFile "lines.csv" [])
       eq_refl) eq_refl eq_refl).
Defined.
